(** * Azure AI Search quickstart (quickstart/v12/src/full-text-search.ts)

    A shallow embedding of the quickstart script and the proofs of its
    error-handling, ordering and query-shape properties.

    The script is a linear sequence of awaited SDK calls with console
    output.  It is embedded in a small monad that threads the state of the
    SDK and of the script's heap, collects the observable events in order and
    carries JavaScript completions (normal or thrown).  The search SDK is not
    part of the sources: it is a parameter (record [Sdk]) whose operations
    answer every call with a value or a thrown error. *)

From Stdlib Require Import ZArith SpecFloat.
From stdpp Require Import base option list strings gmap.

Set Warnings "-register-all,-clear-no-such-hyp".
Local Open Scope string_scope.
Local Open Scope Z_scope.
Local Open Scope list_scope.

(* ===================================================================== *)
(** ** JavaScript values, errors and console output *)
(* ===================================================================== *)

(** A value obtained from a JSON document, plus [undefined], the result of
    reading a property that is absent.  Numbers are IEEE-754 doubles. *)
Inductive JSValue :=
| JUndefined
| JNull
| JBool (b : bool)
| JNum (x : spec_float)
| JStr (s : string)
| JArr (items : list JSValue)
| JObj (props : list (string * JSValue)).

(** What a [throw] can carry: the plain [Error] of the script's own guard,
    the [TypeError] of the runtime, the [RestError] of the SDK. *)
Inductive Exn :=
| Error (message : string)
| TypeError (message : string)
| RestError (statusCode : Z) (message : string).

(** ToBoolean: [!v] is [negb (truthy v)]. *)
Definition truthy (v : JSValue) : bool :=
  match v with
  | JUndefined | JNull => false
  | JBool b => b
  | JNum (S754_zero _) | JNum S754_nan => false
  | JNum _ => true
  | JStr "" => false
  | JStr _ => true
  | JArr _ | JObj _ => true
  end.

(** ToBoolean on a string: only the empty string is falsy. *)
Definition truthy_string (s : string) : bool :=
  match s with "" => false | _ => true end.

Fixpoint own_prop (k : string) (props : list (string * JSValue)) : option JSValue :=
  match props with
  | [] => None
  | (k', v) :: rest => if String.eqb k k' then Some v else own_prop k rest
  end.

(** [v[k]] and [v.k] for the two keys the script reads, ["value"] and
    ["name"]: neither is a property of a prototype, so a primitive or an
    array answers [undefined]; reading a property of [undefined] or [null]
    throws. *)
Definition get_prop (v : JSValue) (k : string) : Exn + JSValue :=
  match v with
  | JUndefined =>
      inl (TypeError ("Cannot read properties of undefined (reading '" +:+ k +:+ "')"))
  | JNull =>
      inl (TypeError ("Cannot read properties of null (reading '" +:+ k +:+ "')"))
  | JObj props => inr (default JUndefined (own_prop k props))
  | _ => inr JUndefined
  end.

(** [x || ""] on [string | undefined]. *)
Definition or_empty (x : option string) : string :=
  match x with
  | Some s => if truthy_string s then s else ""
  | None => ""
  end.

(* ===================================================================== *)
(** ** The data of the script and of the SDK *)
(* ===================================================================== *)

Record Address := {
  StreetAddress : string;
  City : string;
  StateProvince : string;
  PostalCode : string
}.

Record Hotel := {
  HotelId : string;
  HotelName : string;
  Description : string;
  Description_fr : string;
  Category : string;
  Tags : list string;
  ParkingIncluded : string + bool;
  LastRenovationDate : string;
  Rating : spec_float;
  Address_ : Address
}.

(** The part of the SDK's [SearchIndex] the script reads. *)
Record SearchIndex := { index_name : string }.

Record IndexingResult := {
  key : string;
  errorMessage : option string;
  succeeded : bool;
  statusCode : Z
}.

Record IndexDocumentsResult := { results : list IndexingResult }.

Record SearchResult := { score : spec_float; document : JSValue }.

(** The answer of [search]: [sr_results] is the asynchronous sequence of
    results, finite, and ended either normally or by the error of a later
    page ([sr_failure]); [sr_count] is [count?: number]. *)
Record SearchResults := {
  sr_results : list SearchResult;
  sr_failure : option Exn;
  sr_count : option N
}.

(** *** The heap of [sendQueries]

    The arrays and option objects that [sendQueries] builds are objects with
    identity: [selectFields] is one array that the four option objects
    refer to. *)
Definition loc := positive.

(** An option object literal: the recognised options, each present or
    absent; arrays are held by reference. *)
Record OptionsObj := {
  includeTotalCount : option bool;
  select : option loc;
  filter : option string;
  orderBy : option loc;
  searchFields : option loc;
  facets : option loc
}.

(** [readonly] is the static type of the array: [SearchFieldArray<Hotel>]
    and [as const] tuples are read-only arrays, plain literals are not. *)
Inductive Cell :=
| ArrayCell (readonly : bool) (elems : list string)
| OptionsCell (o : OptionsObj).

(** An option object as a callee sees it, arrays dereferenced. *)
Record OptionsView := {
  v_includeTotalCount : option bool;
  v_select : option (list string);
  v_filter : option string;
  v_orderBy : option (list string);
  v_searchFields : option (list string);
  v_facets : option (list string)
}.

Definition read_array (h : gmap loc Cell) (l : loc) : option (list string) :=
  match h !! l with
  | Some (ArrayCell _ xs) => Some xs
  | _ => None
  end.

Definition read_options (h : gmap loc Cell) (l : loc) : option OptionsView :=
  match h !! l with
  | Some (OptionsCell o) =>
      Some {| v_includeTotalCount := includeTotalCount o;
              v_select := select o ≫= read_array h;
              v_filter := filter o;
              v_orderBy := orderBy o ≫= read_array h;
              v_searchFields := searchFields o ≫= read_array h;
              v_facets := facets o ≫= read_array h |}
  | _ => None
  end.

(** *** Observable events *)

(** One argument of [console.log]: literal text, or a value that the
    script converts to text. *)
Inductive Piece :=
| Lit (s : string)
| Num (n : N)                            (* `${documentCount}` *)
| OptNum (c : option N)                  (* `${searchResults.count}` *)
| JsonResult (r : IndexDocumentsResult)  (* JSON.stringify(indexDocumentsResult) *)
| JsonBool (b : bool)                    (* JSON.stringify(....succeeded) *)
| JsonDoc (d : JSValue).                 (* JSON.stringify(result.document) *)

Inductive Request :=
| NewSearchIndexClient (endpoint apiKey : string)
| DeleteIndex (indexName : JSValue)
| CreateIndex (definition : JSValue)
| GetSearchClient (indexName : JSValue)
| MergeOrUploadDocuments (documents : JSValue)
| GetDocumentsCount
| SearchDocuments (searchText : string) (options : loc) (view : option OptionsView)
| NextPage
| GetDocument (key : string).

(** [SdkCall req failure]: the call [req] was made and awaited; it threw
    [e] when [failure = Some e]. *)
Inductive Event :=
| ConsoleLog (line : list Piece)
| ConsoleError (label : string) (err : Exn)
| SdkCall (req : Request) (failure : option Exn)
| TimerElapsed (ms : Z).

(** *** The SDK, a parameter of the script *)

Record Sdk (S : Type) := {
  newSearchIndexClient : string -> string -> S -> (Exn + unit) * S;
  deleteIndex : JSValue -> S -> (Exn + unit) * S;
  createIndex : JSValue -> S -> (Exn + SearchIndex) * S;
  getSearchClient : JSValue -> S -> (Exn + unit) * S;
  mergeOrUploadDocuments : JSValue -> S -> (Exn + IndexDocumentsResult) * S;
  getDocumentsCount : S -> (Exn + N) * S;
  (** [search] is handed a reference to the option object, so it also
      sees, and may change, the heap. *)
  search : string -> loc -> gmap loc Cell -> S ->
           (Exn + SearchResults) * gmap loc Cell * S;
  getDocument : string -> S -> (Exn + Hotel) * S;
  (** the [odata] tagged template: literal parts and interpolated values *)
  odata : list string -> list string -> string
}.

Arguments newSearchIndexClient {S}.
Arguments deleteIndex {S}.
Arguments createIndex {S}.
Arguments getSearchClient {S}.
Arguments mergeOrUploadDocuments {S}.
Arguments getDocumentsCount {S}.
Arguments search {S}.
Arguments getDocument {S}.
Arguments odata {S}.

(* ===================================================================== *)
(** ** The monad of the script *)
(* ===================================================================== *)

Inductive Completion (A : Type) :=
| Normal (a : A)
| Throw (e : Exn).
Arguments Normal {A}.
Arguments Throw {A}.

Record World (S : Type) := { service : S; heap : gmap loc Cell }.
Arguments Build_World {S}.
Arguments service {S}.
Arguments heap {S}.

Definition M (S A : Type) : Type := World S -> Completion A * list Event * World S.

Definition ret {S A} (a : A) : M S A := fun w => (Normal a, [], w).

Definition throw {S A} (e : Exn) : M S A := fun w => (Throw e, [], w).

Definition bind {S A B} (m : M S A) (k : A -> M S B) : M S B :=
  fun w =>
    match m w with
    | (Normal a, t1, w1) =>
        match k a w1 with
        | (c, t2, w2) => (c, t1 ++ t2, w2)
        end
    | (Throw e, t1, w1) => (Throw e, t1, w1)
    end.

(** [try { body } catch { handler }] *)
Definition try_catch {S A} (body : M S A) (handler : M S A) : M S A :=
  fun w =>
    match body w with
    | (Normal a, t1, w1) => (Normal a, t1, w1)
    | (Throw _, t1, w1) =>
        match handler w1 with
        | (c, t2, w2) => (c, t1 ++ t2, w2)
        end
    end.

Notation "x <- m ;; k" := (bind m (fun x => k))
  (at level 100, m at next level, right associativity).
Notation "m ;;; k" := (bind m (fun _ => k))
  (at level 100, right associativity).

Definition emit {S} (ev : Event) : M S unit := fun w => (Normal tt, [ev], w).

Definition console_log {S} (line : list Piece) : M S unit := emit (ConsoleLog line).

Definition lift {S A} (r : Exn + A) : M S A :=
  match r with
  | inl e => throw e
  | inr a => ret a
  end.

(** A call into the SDK (awaited, or a constructor) that is handed no
    object of the script. *)
Definition call {S A} (req : Request) (op : S -> (Exn + A) * S) : M S A :=
  fun w =>
    match op (service w) with
    | (inl e, s') => (Throw e, [SdkCall req (Some e)], Build_World s' (heap w))
    | (inr a, s') => (Normal a, [SdkCall req None], Build_World s' (heap w))
    end.

(** Evaluating an array or object literal: a new object. *)
Definition alloc {S} (c : Cell) : M S loc :=
  fun w =>
    let l := fresh (dom (heap w)) in
    (Normal l, [], Build_World (service w) (<[l := c]> (heap w))).

(* ===================================================================== *)
(** ** The script *)
(* ===================================================================== *)

Section Script.

Context {S : Type} (sdk : Sdk S).

(** [search(text, options)]: the request is recorded with the option
    object as it is at the time of the call. *)
Definition search_call (searchText : string) (options : loc) : M S SearchResults :=
  fun w =>
    let req := SearchDocuments searchText options (read_options (heap w) options) in
    match search sdk searchText options (heap w) (service w) with
    | (inl e, h', s') => (Throw e, [SdkCall req (Some e)], Build_World s' h')
    | (inr r, h', s') => (Normal r, [SdkCall req None], Build_World s' h')
    end.

(** [for await (const x of items) body]: the sequence yields [items] and
    then ends, normally or with the error of fetching a further page. *)
Fixpoint for_await {A} (items : list A) (failure : option Exn)
    (body : A -> M S unit) : M S unit :=
  match items with
  | [] =>
      match failure with
      | Some e => fun w => (Throw e, [SdkCall NextPage (Some e)], w)
      | None => ret tt
      end
  | x :: rest => body x ;;; for_await rest failure body
  end.

(** [new Promise((resolve) => setTimeout(resolve, ms))] *)
Definition sleep (ms : Z) : M S unit := emit (TimerElapsed ms).

Definition deleteIndexIfExists (indexName : JSValue) : M S unit :=
  try_catch
    (call (DeleteIndex indexName) (deleteIndex sdk indexName) ;;;
     console_log [Lit "Deleting index..."])
    (console_log [Lit "Index does not exist yet."]).

Definition loadData (hotels : JSValue) : M S unit :=
  console_log [Lit "Uploading documents..."] ;;;
  indexDocumentsResult <-
    call (MergeOrUploadDocuments hotels) (mergeOrUploadDocuments sdk hotels) ;;
  console_log [JsonResult indexDocumentsResult] ;;;
  match results indexDocumentsResult !! 0%nat with
  | Some first =>
      console_log [Lit "Index operations succeeded: "; JsonBool (succeeded first)]
  | None =>
      throw (TypeError "Cannot read properties of undefined (reading 'succeeded')")
  end.

Definition print_document (result : SearchResult) : M S unit :=
  console_log [JsonDoc (document result)].

Definition selectFields_elems : list string := ["HotelId"; "HotelName"; "Rating"].

(** Query 1, after the array [selectFields] has been built. *)
Definition query1 (selectFields : loc) : M S unit :=
  searchOptions1 <-
    alloc (OptionsCell {| includeTotalCount := Some true;
                          select := Some selectFields;
                          filter := None; orderBy := None;
                          searchFields := None; facets := None |}) ;;
  searchResults <- search_call "*" searchOptions1 ;;
  for_await (sr_results searchResults) (sr_failure searchResults) print_document ;;;
  console_log [Lit "Result count: "; OptNum (sr_count searchResults)] ;;;
  console_log [].

Definition query2 (selectFields : loc) : M S unit :=
  console_log [Lit "Query #2 - search with filter, orderBy, and select:"] ;;;
  let state := "FL" in
  let filter_text := odata sdk ["Address/StateProvince eq "; ""] [state] in
  orderBy_array <- alloc (ArrayCell false ["Rating desc"]) ;;
  searchOptions2 <-
    alloc (OptionsCell {| includeTotalCount := None;
                          select := Some selectFields;
                          filter := Some filter_text;
                          orderBy := Some orderBy_array;
                          searchFields := None; facets := None |}) ;;
  searchResults <- search_call "wifi" searchOptions2 ;;
  for_await (sr_results searchResults) (sr_failure searchResults) print_document ;;;
  console_log [].

Definition query3 (selectFields : loc) : M S unit :=
  console_log [Lit "Query #3 - limit searchFields:"] ;;;
  searchFields_array <- alloc (ArrayCell true ["HotelName"]) ;;
  searchOptions3 <-
    alloc (OptionsCell {| includeTotalCount := None;
                          select := Some selectFields;
                          filter := None; orderBy := None;
                          searchFields := Some searchFields_array;
                          facets := None |}) ;;
  searchResults <- search_call "sublime cliff" searchOptions3 ;;
  for_await (sr_results searchResults) (sr_failure searchResults) print_document ;;;
  console_log [].

Definition query4 (selectFields : loc) : M S unit :=
  console_log [Lit "Query #4 - limit searchFields and use facets:"] ;;;
  facets_array <- alloc (ArrayCell false ["Category"]) ;;
  searchFields_array <- alloc (ArrayCell true ["HotelName"]) ;;
  searchOptions4 <-
    alloc (OptionsCell {| includeTotalCount := None;
                          select := Some selectFields;
                          filter := None; orderBy := None;
                          searchFields := Some searchFields_array;
                          facets := Some facets_array |}) ;;
  searchResults <- search_call "*" searchOptions4 ;;
  for_await (sr_results searchResults) (sr_failure searchResults) print_document ;;;
  console_log [].

Definition query5 : M S unit :=
  console_log [Lit "Query #5 - Lookup document:"] ;;;
  documentResult <- call (GetDocument "3") (getDocument sdk "3") ;;
  console_log [Lit ("HotelId: " +:+ HotelId documentResult +:+
                    "; HotelName: " +:+ HotelName documentResult)] ;;;
  console_log [].

Definition sendQueries : M S unit :=
  console_log [Lit "Query #1 - search everything:"] ;;;
  selectFields <- alloc (ArrayCell true selectFields_elems) ;;
  query1 selectFields ;;;
  query2 selectFields ;;;
  query3 selectFields ;;;
  query4 selectFields ;;;
  query5.

(** [main], with the module constants it reads as parameters. *)
Definition main (endpoint apiKey : string)
    (hotelIndexDefinition hotels : JSValue) : M S unit :=
  console_log [Lit "Running Azure AI Search Javascript quickstart..."] ;;;
  if negb (truthy_string endpoint) || negb (truthy_string apiKey) then
    console_log [Lit "Make sure to set valid values for endpoint and apiKey with proper authorization."] ;;;
    ret tt
  else
    call (NewSearchIndexClient endpoint apiKey)
         (newSearchIndexClient sdk endpoint apiKey) ;;;
    indexName <- lift (get_prop hotelIndexDefinition "name") ;;
    console_log [Lit "Checking if index exists..."] ;;;
    deleteIndexIfExists indexName ;;;
    console_log [Lit "Creating index..."] ;;;
    index <- call (CreateIndex hotelIndexDefinition)
                  (createIndex sdk hotelIndexDefinition) ;;
    console_log [Lit ("Index named " +:+ index_name index +:+ " has been created.")] ;;;
    call (GetSearchClient indexName) (getSearchClient sdk indexName) ;;;
    loadData hotels ;;;
    sleep 1000 ;;;
    documentCount <- call GetDocumentsCount (getDocumentsCount sdk) ;;
    console_log [Num documentCount; Lit " docs uploaded"] ;;;
    console_log [Lit "Querying the index..."] ;;;
    console_log [] ;;;
    sendQueries.

(** *** The module body *)

(** What the run is given: the two bundled documents as the imports
    deliver them (an import that fails throws), and the environment after
    [dotenv.config()]. *)
Record Inputs := {
  hotelData : Exn + JSValue;
  indexDefinition : Exn + JSValue;
  process_env : gmap string string
}.

(** The module constants [main] reads. *)
Record Constants := {
  hotels : JSValue;
  hotelIndexDefinition : JSValue;
  endpoint : string;
  apiKey : string
}.

(** Lines 22 to 56: the imports, the guard and the constants. *)
Definition startup (inp : Inputs) : Exn + Constants :=
  match hotelData inp with
  | inl e => inl e
  | inr hotelData =>
      match indexDefinition inp with
      | inl e => inl e
      | inr indexDefinition =>
          if negb (truthy hotelData) || negb (truthy indexDefinition) then
            inl (Error "Make sure to set valid values for hotelData and indexDefinition.")
          else
            match get_prop hotelData "value" with
            | inl e => inl e
            | inr hotels =>
                inr {| hotels := hotels;
                       hotelIndexDefinition := indexDefinition;
                       endpoint := or_empty (process_env inp !! "SEARCH_API_ENDPOINT");
                       apiKey := or_empty (process_env inp !! "SEARCH_API_KEY") |}
            end
      end
  end.

(** [p.catch(handler)] *)
Definition promise_catch (p : M S unit) (handler : Exn -> M S unit) : M S unit :=
  fun w =>
    match p w with
    | (Normal a, t1, w1) => (Normal a, t1, w1)
    | (Throw err, t1, w1) =>
        match handler err w1 with
        | (c, t2, w2) => (c, t1 ++ t2, w2)
        end
    end.

Definition top_level (c : Constants) : M S unit :=
  promise_catch
    (main (endpoint c) (apiKey c) (hotelIndexDefinition c) (hotels c))
    (fun err => emit (ConsoleError "The sample encountered an error:" err)).

(** How the process ends.  Nothing in the script assigns
    [process.exitCode] or calls [process.exit]: the status is 1 when an
    exception escapes the module body or a rejection is left unhandled,
    and 0 when the event loop drains. *)
Record Exit := {
  output : list Event;
  uncaught : option Exn;
  exit_code : Z
}.

Definition program (inp : Inputs) (s0 : S) : Exit :=
  match startup inp with
  | inl e => {| output := []; uncaught := Some e; exit_code := 1 |}
  | inr c =>
      match top_level c (Build_World s0 ∅) with
      | (Normal _, t, _) => {| output := t; uncaught := None; exit_code := 0 |}
      | (Throw e, t, _) => {| output := t; uncaught := Some e; exit_code := 1 |}
      end
  end.

End Script.

Arguments hotelData : clear implicits.

(* ===================================================================== *)
(** ** Concrete SDKs, to run the script on *)
(* ===================================================================== *)

(** A scripted service: each operation answers as the scenario says.  With
    [sc_scribble] set, [search] overwrites the option object it was handed
    before it answers. *)
Record Scenario := {
  sc_delete : Exn + unit;
  sc_create : Exn + SearchIndex;
  sc_upload : Exn + IndexDocumentsResult;
  sc_count : Exn + N;
  sc_search : string -> Exn + SearchResults;
  sc_document : Exn + Hotel;
  sc_scribble : bool
}.

Fixpoint quote_join (strings values : list string) : string :=
  match strings, values with
  | s :: ss, v :: vs => s +:+ "'" +:+ v +:+ "'" +:+ quote_join ss vs
  | s :: ss, [] => s +:+ quote_join ss []
  | [], _ => ""
  end.

Definition scribbled : OptionsObj :=
  {| includeTotalCount := Some false; select := None; filter := Some "scribbled";
     orderBy := None; searchFields := None; facets := None |}.

Definition scripted (sc : Scenario) : Sdk unit :=
  {| newSearchIndexClient := fun _ _ s => (inr tt, s);
     deleteIndex := fun _ s => (sc_delete sc, s);
     createIndex := fun _ s => (sc_create sc, s);
     getSearchClient := fun _ s => (inr tt, s);
     mergeOrUploadDocuments := fun _ s => (sc_upload sc, s);
     getDocumentsCount := fun s => (sc_count sc, s);
     search := fun text l h s =>
       (sc_search sc text,
        if sc_scribble sc then
          match h !! l with
          | Some (OptionsCell _) => <[l := OptionsCell scribbled]> h
          | _ => h
          end
        else h, s);
     getDocument := fun _ s => (sc_document sc, s);
     odata := quote_join |}.

Definition sample_hotel : Hotel :=
  {| HotelId := "3"; HotelName := "Gastronomic Landscape Hotel";
     Description := ""; Description_fr := ""; Category := "Suite";
     Tags := ["restaurant"; "bar"]; ParkingIncluded := inr true;
     LastRenovationDate := "2015-09-20T00:00:00Z";
     Rating := S754_finite false 5 0;
     Address_ := {| StreetAddress := "3393 Peachtree Rd"; City := "Atlanta";
                    StateProvince := "GA"; PostalCode := "30326" |} |}.

Definition sample_document : JSValue :=
  JObj [("HotelId", JStr "3"); ("HotelName", JStr "Gastronomic Landscape Hotel");
        ("Rating", JNum (S754_finite false 5 0))].

(** One result, then the next page cannot be fetched. *)
Definition two_pages_then_error : SearchResults :=
  {| sr_results := [ {| score := S754_finite false 1 0; document := sample_document |} ];
     sr_failure := Some (RestError 503 "Service Unavailable");
     sr_count := None |}.

Definition one_result : SearchResults :=
  {| sr_results := [ {| score := S754_finite false 1 0; document := sample_document |} ];
     sr_failure := None;
     sr_count := Some 1%N |}.

(** Everything succeeds. *)
Definition all_fine : Scenario :=
  {| sc_delete := inr tt;
     sc_create := inr {| index_name := "hotels-quickstart" |};
     sc_upload := inr {| results := [ {| key := "3"; errorMessage := None;
                                         succeeded := true; statusCode := 201 |} ] |};
     sc_count := inr 1%N;
     sc_search := fun _ => inr one_result;
     sc_document := inr sample_hotel;
     sc_scribble := true |}.

Definition not_found : Exn := RestError 404 "No index with the name 'hotels-quickstart' was found".
Definition forbidden : Exn := RestError 403 "Forbidden".

Definition with_delete (r : Exn + unit) (sc : Scenario) : Scenario :=
  {| sc_delete := r; sc_create := sc_create sc; sc_upload := sc_upload sc;
     sc_count := sc_count sc; sc_search := sc_search sc;
     sc_document := sc_document sc; sc_scribble := sc_scribble sc |}.

Definition with_create (r : Exn + SearchIndex) (sc : Scenario) : Scenario :=
  {| sc_delete := sc_delete sc; sc_create := r; sc_upload := sc_upload sc;
     sc_count := sc_count sc; sc_search := sc_search sc;
     sc_document := sc_document sc; sc_scribble := sc_scribble sc |}.

Definition with_upload (r : Exn + IndexDocumentsResult) (sc : Scenario) : Scenario :=
  {| sc_delete := sc_delete sc; sc_create := sc_create sc; sc_upload := r;
     sc_count := sc_count sc; sc_search := sc_search sc;
     sc_document := sc_document sc; sc_scribble := sc_scribble sc |}.

Definition with_search (f : string -> Exn + SearchResults) (sc : Scenario) : Scenario :=
  {| sc_delete := sc_delete sc; sc_create := sc_create sc; sc_upload := sc_upload sc;
     sc_count := sc_count sc; sc_search := f;
     sc_document := sc_document sc; sc_scribble := sc_scribble sc |}.

Definition with_document (r : Exn + Hotel) (sc : Scenario) : Scenario :=
  {| sc_delete := sc_delete sc; sc_create := sc_create sc; sc_upload := sc_upload sc;
     sc_count := sc_count sc; sc_search := sc_search sc;
     sc_document := r; sc_scribble := sc_scribble sc |}.

(** An SDK that ignores the read-only type of [select]: every [search]
    appends a field to the array it finds there. *)
Definition push_select (h : gmap loc Cell) (l : loc) : gmap loc Cell :=
  match h !! l with
  | Some (OptionsCell o) =>
      match select o with
      | Some a =>
          match h !! a with
          | Some (ArrayCell ro xs) => <[a := ArrayCell ro (xs ++ ["Category"])]> h
          | _ => h
          end
      | None => h
      end
  | _ => h
  end.

Definition rogue : Sdk unit :=
  {| newSearchIndexClient := fun _ _ s => (inr tt, s);
     deleteIndex := fun _ s => (inr tt, s);
     createIndex := fun _ s => (inr {| index_name := "hotels-quickstart" |}, s);
     getSearchClient := fun _ s => (inr tt, s);
     mergeOrUploadDocuments := fun _ s => (inr {| results := [] |}, s);
     getDocumentsCount := fun s => (inr 0%N, s);
     search := fun _ l h s => (inr one_result, push_select h l, s);
     getDocument := fun _ s => (inr sample_hotel, s);
     odata := quote_join |}.

Definition sample_index_definition : JSValue :=
  JObj [("name", JStr "hotels-quickstart"); ("fields", JArr []); ("suggesters", JArr [])].

Definition sample_hotel_data : JSValue :=
  JObj [("value", JArr [sample_document])].

Definition sample_env : gmap string string :=
  {[ "SEARCH_API_ENDPOINT" := "https://example.search.windows.net";
     "SEARCH_API_KEY" := "secret" ]}.

Definition sample_inputs : Inputs :=
  {| hotelData := inr sample_hotel_data;
     indexDefinition := inr sample_index_definition;
     process_env := sample_env |}.

Definition sample_constants : Constants :=
  {| hotels := JArr [sample_document];
     hotelIndexDefinition := sample_index_definition;
     endpoint := "https://example.search.windows.net";
     apiKey := "secret" |}.

Definition empty_world : World unit := {| service := tt; heap := ∅ |}.

(** The environment with the key left empty. *)
Definition keyless_inputs : Inputs :=
  {| hotelData := inr sample_hotel_data;
     indexDefinition := inr sample_index_definition;
     process_env := {[ "SEARCH_API_ENDPOINT" := "https://example.search.windows.net";
                       "SEARCH_API_KEY" := "" ]} |}.

Definition keyless_constants : Constants :=
  {| hotels := JArr [sample_document];
     hotelIndexDefinition := sample_index_definition;
     endpoint := "https://example.search.windows.net";
     apiKey := "" |}.

(** The record set is [null]. *)
Definition null_inputs : Inputs :=
  {| hotelData := inr JNull;
     indexDefinition := inr sample_index_definition;
     process_env := sample_env |}.

(** The record set is empty, and the upload reports no result. *)
Definition no_hotels_constants : Constants :=
  {| hotels := JArr [];
     hotelIndexDefinition := sample_index_definition;
     endpoint := "https://example.search.windows.net";
     apiKey := "secret" |}.

Definition no_results : IndexDocumentsResult := {| results := [] |}.

(* ===================================================================== *)
(** ** Observations on a run *)
(* ===================================================================== *)

(** The error of a failed call, unless the call is the deletion of the
    index. *)
Definition fatal (ev : Event) : option Exn :=
  match ev with
  | SdkCall (DeleteIndex _) _ => None
  | SdkCall _ failure => failure
  | _ => None
  end.

Definition no_first_result : Exn :=
  TypeError "Cannot read properties of undefined (reading 'succeeded')".

(** The error that follows the printing of an upload result whose list of
    per-record results is empty. *)
Definition unreportable (ev : Event) : option Exn :=
  match ev with
  | ConsoleLog [JsonResult r] =>
      match results r with
      | [] => Some no_first_result
      | _ :: _ => None
      end
  | _ => None
  end.

(** For [F] a way to read a doom off an event ([fatal], [unreportable]). *)
Definition quiet (F : Event -> option Exn) (t : list Event) : Prop :=
  Forall (fun ev => F ev = None) t.

(** The trace of a run and its completion agree on [F]: no event is
    doomed, or exactly the last one is and the run throws its error. *)
Definition ends_well (F : Event -> option Exn) {A} (c : Completion A)
    (t : list Event) : Prop :=
  quiet F t \/
  exists pre ev e, t = pre ++ [ev] /\ quiet F pre /\ F ev = Some e /\ c = Throw e.

Definition terminal (F : Event -> option Exn) {S A} (m : M S A) : Prop :=
  forall w, ends_well F (m w).1.1 (m w).1.2.

(** [F] dooms a failed call with the error of the call, or not at all. *)
Definition follows_calls (F : Event -> option Exn) (req : Request) : Prop :=
  F (SdkCall req None) = None /\
  forall e, F (SdkCall req (Some e)) = None \/ F (SdkCall req (Some e)) = Some e.

(** What the loop over the results of a query prints, and how it ends. *)
Definition printed (items : list SearchResult) : list Event :=
  map (fun r => ConsoleLog [JsonDoc (document r)]) items.

Definition page_failure (failure : option Exn) : list Event :=
  match failure with
  | Some e => [SdkCall NextPage (Some e)]
  | None => []
  end.

(** A configuration value is missing: unset, or set to the empty string. *)
Definition missing (x : option string) : Prop := x = None \/ x = Some "".

(** A bundled document is missing (its import throws) or yields no value
    (what it yields is falsy). *)
Definition no_value (d : Exn + JSValue) : Prop :=
  match d with
  | inl _ => True
  | inr v => truthy v = false
  end.

Definition valid_configuration (endpoint apiKey : string) : Prop :=
  truthy_string endpoint = true /\ truthy_string apiKey = true.

(** *** Steps *)

Inductive Step :=
| Configure (endpoint apiKey : string)
| DeleteIfExists
| CreateFrom (definition : JSValue)
| Upload (documents : JSValue)
| Delay (ms : Z)
| CountDocuments
| Query (searchText : string)
| Lookup (key : string).

(** The step an event belongs to; console output, the search client handle
    and the later pages of a query's results are no steps of their own. *)
Definition step_of (ev : Event) : option Step :=
  match ev with
  | SdkCall (NewSearchIndexClient ep k) _ => Some (Configure ep k)
  | SdkCall (DeleteIndex _) _ => Some DeleteIfExists
  | SdkCall (CreateIndex d) _ => Some (CreateFrom d)
  | SdkCall (MergeOrUploadDocuments d) _ => Some (Upload d)
  | TimerElapsed ms => Some (Delay ms)
  | SdkCall GetDocumentsCount _ => Some CountDocuments
  | SdkCall (SearchDocuments text _ _) _ => Some (Query text)
  | SdkCall (GetDocument k) _ => Some (Lookup k)
  | _ => None
  end.

Definition steps (t : list Event) : list Step := omap step_of t.

Definition query_plan : list Step :=
  [Query "*"; Query "wifi"; Query "sublime cliff"; Query "*"; Lookup "3"].

Definition plan (endpoint apiKey : string) (definition documents : JSValue) : list Step :=
  [Configure endpoint apiKey; DeleteIfExists; CreateFrom definition;
   Upload documents; Delay 1000; CountDocuments] ++ query_plan.

(** [linear m L]: every run of [m] performs the steps of [L] in order, from
    the first one on and up to where it stops, and all of them when it
    completes. *)
Definition linear {S A} (m : M S A) (L : list Step) : Prop :=
  forall w,
    steps (m w).1.2 `prefix_of` L /\
    forall a, (m w).1.1 = Normal a -> steps (m w).1.2 = L.

(** *** Queries *)

Inductive QueryShape :=
| SearchQuery (searchText : string) (options : option OptionsView)
| KeyLookup (key : string).

Definition query_of (ev : Event) : option QueryShape :=
  match ev with
  | SdkCall (SearchDocuments text _ view) _ => Some (SearchQuery text view)
  | SdkCall (GetDocument k) _ => Some (KeyLookup k)
  | _ => None
  end.

Definition queries (t : list Event) : list QueryShape := omap query_of t.

(** The references to the option objects handed to [search], in order. *)
Definition option_object_of (ev : Event) : option loc :=
  match ev with
  | SdkCall (SearchDocuments _ l _) _ => Some l
  | _ => None
  end.

Definition option_objects (t : list Event) : list loc := omap option_object_of t.

Definition options1 : OptionsView :=
  {| v_includeTotalCount := Some true; v_select := Some selectFields_elems;
     v_filter := None; v_orderBy := None; v_searchFields := None; v_facets := None |}.

Definition options2 {S} (sdk : Sdk S) : OptionsView :=
  {| v_includeTotalCount := None; v_select := Some selectFields_elems;
     v_filter := Some (odata sdk ["Address/StateProvince eq "; ""] ["FL"]);
     v_orderBy := Some ["Rating desc"]; v_searchFields := None; v_facets := None |}.

Definition options3 : OptionsView :=
  {| v_includeTotalCount := None; v_select := Some selectFields_elems;
     v_filter := None; v_orderBy := None;
     v_searchFields := Some ["HotelName"]; v_facets := None |}.

Definition options4 : OptionsView :=
  {| v_includeTotalCount := None; v_select := Some selectFields_elems;
     v_filter := None; v_orderBy := None;
     v_searchFields := Some ["HotelName"]; v_facets := Some ["Category"] |}.

Definition five_queries {S} (sdk : Sdk S) : list QueryShape :=
  [SearchQuery "*" (Some options1);
   SearchQuery "wifi" (Some (options2 sdk));
   SearchQuery "sublime cliff" (Some options3);
   SearchQuery "*" (Some options4);
   KeyLookup "3"].

(** The [select] a query carries. *)
Definition selected (q : QueryShape) : option (list string) :=
  match q with
  | SearchQuery _ (Some v) => v_select v
  | _ => None
  end.


(** *** What the script relies on from the SDK's [search]

    [search] may change the option object it is handed and any other
    mutable object; it does not write to an array whose type is read-only
    ([respects_readonly]), and objects do not disappear ([keeps_objects]). *)
Definition respects_readonly {S} (sdk : Sdk S) : Prop :=
  forall text l h s a xs,
    h !! a = Some (ArrayCell true xs) ->
    (search sdk text l h s).1.2 !! a = Some (ArrayCell true xs).

Definition keeps_objects {S} (sdk : Sdk S) : Prop :=
  forall text l (h : gmap loc Cell) s, dom h ⊆ dom (search sdk text l h s).1.2.

Definition holds_selectFields {S} (sf : loc) (w : World S) : Prop :=
  heap w !! sf = Some (ArrayCell true selectFields_elems).

(** [asks sdk sf m qs]: started where [sf] is the array [selectFields], [m]
    leaves that array as it is and issues the queries [qs] in order, up to
    where it stops, and all of them when it completes. *)
Definition asks {S A} (sf : loc) (m : M S A) (qs : list QueryShape) : Prop :=
  forall w, holds_selectFields sf w ->
    holds_selectFields sf (m w).2 /\
    queries (m w).1.2 `prefix_of` qs /\
    forall a, (m w).1.1 = Normal a -> queries (m w).1.2 = qs.


(** [silent m]: [m] issues no query and leaves the heap as it is. *)
Definition silent {S A} (m : M S A) : Prop :=
  forall w,
    queries (m w).1.2 = [] /\ option_objects (m w).1.2 = [] /\
    heap (m w).2 = heap w.

(** What one query block does: it issues the query [q] with a new option
    object, and leaves [selectFields] as it found it. *)
Definition query_block {S} (sdk : Sdk S) (sf : loc) (q : QueryShape)
    (m : M S unit) : Prop :=
  forall w, holds_selectFields sf w ->
    exists l,
      queries (m w).1.2 = [q] /\
      option_objects (m w).1.2 = [l] /\
      (l ∉ dom (heap w)) /\
      (respects_readonly sdk -> holds_selectFields sf (m w).2) /\
      (keeps_objects sdk ->
         dom (heap w) ⊆ dom (heap (m w).2) /\ l ∈ dom (heap (m w).2)).

(** *** The run up to the creation of the index *)

Definition failure_of {A} (r : Exn + A) : option Exn :=
  match r with
  | inl e => Some e
  | inr _ => None
  end.

Definition is_deletion (ev : Event) : bool :=
  match ev with
  | SdkCall (DeleteIndex _) _ => true
  | _ => false
  end.

Definition running_line : Event :=
  ConsoleLog [Lit "Running Azure AI Search Javascript quickstart..."].
Definition configuration_line : Event :=
  ConsoleLog [Lit "Make sure to set valid values for endpoint and apiKey with proper authorization."].
Definition checking_line : Event := ConsoleLog [Lit "Checking if index exists..."].
Definition deleting_line : Event := ConsoleLog [Lit "Deleting index..."].
Definition missing_index_line : Event := ConsoleLog [Lit "Index does not exist yet."].
Definition creating_line : Event := ConsoleLog [Lit "Creating index..."].
Definition uploading_line : Event := ConsoleLog [Lit "Uploading documents..."].
Definition error_label : string := "The sample encountered an error:".

(** *** Further observations *)

(** [emits_only P m]: every event of every run of [m] satisfies [P]. *)
Definition emits_only (P : Event -> Prop) {S A} (m : M S A) : Prop :=
  forall w, Forall P (m w).1.2.

(** The arguments [main] is to hand to the SDK, given its constants. *)
Definition expected_request (ep key : string) (def docs : JSValue)
    (req : Request) : Prop :=
  match req with
  | NewSearchIndexClient e k => e = ep /\ k = key
  | DeleteIndex n => get_prop def "name" = inr n
  | CreateIndex d => d = def
  | GetSearchClient n => get_prop def "name" = inr n
  | MergeOrUploadDocuments d => d = docs
  | GetDocumentsCount => True
  | SearchDocuments text _ _ => In text ["*"; "wifi"; "sublime cliff"]
  | NextPage => True
  | GetDocument k => k = "3"
  end.

Definition expected_event (ep key : string) (def docs : JSValue)
    (ev : Event) : Prop :=
  match ev with
  | SdkCall req _ => expected_request ep key def docs req
  | _ => True
  end.

Definition is_error_line (ev : Event) : bool :=
  match ev with
  | ConsoleError _ _ => true
  | _ => false
  end.

(** The last event of [t] is a failed call other than the deletion, or
    the printing of an upload result without results, and [e] is its
    error. *)
Definition caused (e : Exn) (t : list Event) : Prop :=
  exists pre ev, t = pre ++ [ev] /\ (fatal ev = Some e \/ unreportable ev = Some e).

Definition throws_with_cause {S A} (m : M S A) : Prop :=
  forall w e, (m w).1.1 = Throw e -> caused e (m w).1.2.

(** What [hotelData["value"]] is for a truthy [hotelData]. *)
Definition value_of (hotelData : JSValue) : JSValue :=
  match hotelData with
  | JObj props => default JUndefined (own_prop "value" props)
  | _ => JUndefined
  end.

(** What the first query prints once [search] has answered. *)
Definition query1_output (answer : Exn + SearchResults) : list Event :=
  match answer with
  | inl _ => []
  | inr r =>
      printed (sr_results r) ++
      match sr_failure r with
      | Some e => [SdkCall NextPage (Some e)]
      | None => [ConsoleLog [Lit "Result count: "; OptNum (sr_count r)]; ConsoleLog []]
      end
  end.

(** A record set whose first record was refused, and one that is not an
    object with a [value]. *)
Definition refused_results : IndexDocumentsResult :=
  {| results := [ {| key := "1"; errorMessage := Some "refused";
                     succeeded := false; statusCode := 400 |};
                  {| key := "2"; errorMessage := None;
                     succeeded := true; statusCode := 201 |} ] |}.

Definition valueless_inputs : Inputs :=
  {| hotelData := inr (JObj [("hotels", JArr [sample_document])]);
     indexDefinition := inr sample_index_definition;
     process_env := sample_env |}.

(** *** What [search] is handed

    To see the objects the script hands to [search], an SDK is wrapped so
    that it also keeps, in order, every option object reference it is
    handed together with the heap at that moment; its answers are those of
    the SDK it wraps. *)











(* ===================================================================== *)
(** ** Running the monad *)
(* ===================================================================== *)

Section Runs.

Context {S : Type}.

Lemma bind_normal {A B} (m : M S A) (k : A -> M S B) w a t1 w1 :
  m w = (Normal a, t1, w1) ->
  bind m k w = ((k a w1).1.1, t1 ++ (k a w1).1.2, (k a w1).2).
Proof.
  intros Hm. unfold bind. rewrite Hm. by destruct (k a w1) as [[c t2] w2].
Qed.

Lemma bind_throw {A B} (m : M S A) (k : A -> M S B) w e t1 w1 :
  m w = (Throw e, t1, w1) -> bind m k w = (Throw e, t1, w1).
Proof. intros Hm. unfold bind. by rewrite Hm. Qed.

Lemma bind_console_log {B} line (k : unit -> M S B) w :
  bind (console_log line) k w =
    ((k tt w).1.1, ConsoleLog line :: (k tt w).1.2, (k tt w).2).
Proof. unfold bind, console_log, emit. by destruct (k tt w) as [[c t] w']. Qed.

Lemma bind_alloc {B} c (k : loc -> M S B) w :
  bind (alloc c) k w =
    k (fresh (dom (heap w)))
      (Build_World (service w) (<[fresh (dom (heap w)) := c]> (heap w))).
Proof. unfold bind, alloc. by destruct (k _ _) as [[c' t] w']. Qed.

Lemma for_await_print items failure (w : World S) :
  for_await items failure print_document w =
    (match failure with Some e => Throw e | None => Normal tt end,
     printed items ++ page_failure failure, w).
Proof.
  revert w. induction items as [|r items IH]; intros w; simpl.
  - by destruct failure.
  - unfold bind at 1.
    change (print_document r w)
      with (Normal tt, [ConsoleLog [JsonDoc (document r)]], w).
    simpl. rewrite IH. by destruct failure.
Qed.

Lemma steps_printed items : steps (printed items) = [].
Proof. induction items; simpl; auto. Qed.

Lemma queries_printed items : queries (printed items) = [].
Proof. induction items; simpl; auto. Qed.

Lemma option_objects_printed items : option_objects (printed items) = [].
Proof. induction items; simpl; auto. Qed.

(** *** Dooms are terminal *)

Section Dooms.

Variable F : Event -> option Exn.

Lemma quiet_app t1 t2 : quiet F t1 -> quiet F t2 -> quiet F (t1 ++ t2).
Proof. unfold quiet. intros H1 H2. by apply Forall_app. Qed.

Lemma ends_well_normal {A} (a : A) t : ends_well F (Normal a) t -> quiet F t.
Proof. intros [Hq | (pre & ev & e & _ & _ & _ & Hc)]; [done | discriminate]. Qed.

Lemma ends_well_app {B} (c : Completion B) t1 t2 :
  quiet F t1 -> ends_well F c t2 -> ends_well F c (t1 ++ t2).
Proof.
  intros H1 [H2 | (pre & ev & e & -> & Hpre & Hev & Hc)].
  - left. by apply quiet_app.
  - right. exists (t1 ++ pre), ev, e. rewrite app_assoc.
    repeat split; try done. by apply quiet_app.
Qed.

Lemma ends_well_retype {A B} e t :
  ends_well F (A := A) (Throw e) t -> ends_well F (A := B) (Throw e) t.
Proof.
  intros [Hq | (pre & ev & e' & -> & Hpre & Hev & Hc)]; [by left |].
  right. exists pre, ev, e'. repeat split; try done. congruence.
Qed.

(** A doomed event of a run that ends well is its last event, and the
    run throws the error of that event. *)
Lemma ends_well_last {A} (c : Completion A) t pre ev post e :
  ends_well F c t -> t = pre ++ ev :: post -> F ev = Some e ->
  post = [] /\ c = Throw e.
Proof.
  intros [Hq | (pre' & ev' & e' & Ht & Hpre & Hev & Hc)] -> Hfatal.
  - apply Forall_app in Hq as [_ Hq]. apply Forall_cons in Hq as [Hq _].
    congruence.
  - destruct post as [|x post _] using rev_ind.
    + apply app_inj_tail in Ht as [_ <-]. split; congruence.
    + rewrite app_comm_cons, app_assoc in Ht.
      apply app_inj_tail in Ht as [<- _].
      apply Forall_app in Hpre as [_ Hq]. apply Forall_cons in Hq as [Hq _].
      congruence.
Qed.

Lemma terminal_ret {A} (a : A) : terminal F (S := S) (ret a).
Proof. intros w. left. constructor. Qed.

Lemma terminal_throw {A} e : terminal F (S := S) (A := A) (throw e).
Proof. intros w. left. constructor. Qed.

Lemma terminal_lift {A} (r : Exn + A) : terminal F (S := S) (lift r).
Proof. destruct r; [apply terminal_throw | apply terminal_ret]. Qed.

Lemma terminal_console_log line :
  F (ConsoleLog line) = None -> terminal F (S := S) (console_log line).
Proof. intros HF w. left. by repeat constructor. Qed.

Lemma terminal_sleep ms :
  F (TimerElapsed ms) = None -> terminal F (S := S) (sleep ms).
Proof. intros HF w. left. by repeat constructor. Qed.

Lemma terminal_alloc c : terminal F (S := S) (alloc c).
Proof. intros w. left. constructor. Qed.

Lemma ends_well_call {A} req (r : Exn + A) :
  follows_calls F req ->
  ends_well F (match r with inl e => Throw e | inr a => Normal a end)
    [SdkCall req (match r with inl e => Some e | inr _ => None end)].
Proof.
  intros [Hok Hfail]. destruct r as [e|a].
  - destruct (Hfail e) as [HF | HF].
    + left. by repeat constructor.
    + right. exists [], (SdkCall req (Some e)), e.
      split; [reflexivity |]. split; [constructor |]. done.
  - left. by repeat constructor.
Qed.

Lemma terminal_call {A} req (op : S -> (Exn + A) * S) :
  follows_calls F req -> terminal F (call req op).
Proof.
  intros HF w. unfold call.
  destruct (op (service w)) as [r s'] eqn:Hop.
  pose proof (ends_well_call req r HF) as H. by destruct r.
Qed.

Lemma terminal_search_call (sdk : Sdk S) text l :
  (forall view, follows_calls F (SearchDocuments text l view)) ->
  terminal F (search_call sdk text l).
Proof.
  intros HF w. unfold search_call.
  destruct (search sdk text l (heap w) (service w)) as [[r h'] s'].
  pose proof (ends_well_call _ r (HF (read_options (heap w) l))) as H.
  by destruct r.
Qed.

Lemma quiet_printed items :
  (forall d, F (ConsoleLog [JsonDoc d]) = None) -> quiet F (printed items).
Proof. intros HF. induction items; constructor; auto. Qed.

Lemma terminal_for_await items failure :
  (forall d, F (ConsoleLog [JsonDoc d]) = None) ->
  follows_calls F NextPage ->
  terminal F (S := S) (for_await items failure print_document).
Proof.
  intros Hlog Hcall w. rewrite for_await_print. simpl.
  apply ends_well_app; [by apply quiet_printed |].
  destruct failure as [e|]; simpl.
  - apply (ends_well_call (A := unit) NextPage (inl e) Hcall).
  - left. constructor.
Qed.

Lemma terminal_deleteIndexIfExists (sdk : Sdk S) name :
  (forall r, F (SdkCall (DeleteIndex name) r) = None) ->
  F (ConsoleLog [Lit "Deleting index..."]) = None ->
  F (ConsoleLog [Lit "Index does not exist yet."]) = None ->
  terminal F (deleteIndexIfExists sdk name).
Proof.
  intros Hdel Hlog1 Hlog2 w. left.
  unfold deleteIndexIfExists, try_catch, bind, call.
  destruct (deleteIndex sdk name (service w)) as [[e|[]] s']; simpl;
    by repeat constructor.
Qed.

Lemma terminal_bind {A B} (m : M S A) (k : A -> M S B) :
  terminal F m -> (forall a, terminal F (k a)) -> terminal F (bind m k).
Proof.
  intros Hm Hk w. specialize (Hm w).
  destruct (m w) as [[[a|e] t1] w1] eqn:Hrun.
  - rewrite (bind_normal _ _ _ _ _ _ Hrun). simpl in *.
    apply ends_well_app; [by eapply ends_well_normal | apply Hk].
  - rewrite (bind_throw _ _ _ _ _ _ Hrun). simpl in *.
    by apply (ends_well_retype (A := A)).
Qed.

End Dooms.

End Runs.

(** One step of a proof that a sequence of the script is [terminal], for a
    concrete reading [F] of the events. *)
Ltac follows :=
  split; [reflexivity | intros ?; first [left; reflexivity | right; reflexivity]].

Ltac terminal_step :=
  first
    [ apply terminal_bind; [| intros ?]
    | apply terminal_console_log; reflexivity
    | apply terminal_sleep; reflexivity
    | apply terminal_call; follows
    | apply terminal_search_call; intros ?; follows
    | apply terminal_for_await; [intros ?; reflexivity | follows]
    | apply terminal_deleteIndexIfExists; [intros ?; reflexivity | reflexivity ..]
    | apply terminal_alloc
    | apply terminal_lift
    | apply terminal_ret
    | apply terminal_throw ].

(* ===================================================================== *)
(** ** Failures of the script's functions *)
(* ===================================================================== *)

Section Behaviour.

Context {S : Type} (sdk : Sdk S).

Lemma terminal_loadData docs : terminal fatal (loadData sdk docs).
Proof.
  unfold loadData. repeat terminal_step.
  destruct (results _ !! 0%nat); terminal_step.
Qed.

Lemma terminal_sendQueries F :
  (F = fatal \/ F = unreportable) -> terminal F (sendQueries sdk).
Proof.
  unfold sendQueries, query1, query2, query3, query4, query5.
  intros [-> | ->]; repeat terminal_step.
Qed.

Lemma terminal_main ep key def docs : terminal fatal (main sdk ep key def docs).
Proof.
  unfold main. terminal_step; [terminal_step |].
  destruct (negb (truthy_string ep) || negb (truthy_string key)).
  - repeat terminal_step.
  - repeat first [ apply terminal_loadData | apply terminal_sendQueries; by left
                 | terminal_step ].
Qed.

(** The upload result is printed; when it has no first result, the next
    statement throws. *)
Lemma unreportable_loadData docs : terminal unreportable (loadData sdk docs).
Proof.
  intros w. unfold loadData. rewrite bind_console_log. simpl.
  unfold bind, call.
  destruct (mergeOrUploadDocuments sdk docs (service w)) as [[e|r] s']; simpl.
  - left. by repeat constructor.
  - destruct r as [[|first rest]]; simpl.
    + right. eexists [_; _], _, _.
      split; [reflexivity |]. split; [by repeat constructor | done].
    + left. by repeat constructor.
Qed.

Lemma unreportable_main ep key def docs :
  terminal unreportable (main sdk ep key def docs).
Proof.
  unfold main. terminal_step; [terminal_step |].
  destruct (negb (truthy_string ep) || negb (truthy_string key)).
  - repeat terminal_step.
  - repeat first [ apply unreportable_loadData
                 | apply terminal_sendQueries; by right
                 | terminal_step ].
Qed.

End Behaviour.

(* ===================================================================== *)
(** ** The order of the steps *)
(* ===================================================================== *)

Section Order.

Context {S : Type} (sdk : Sdk S).

Lemma linear_ret {A} (a : A) : linear (S := S) (ret a) [].
Proof. intros w. by split. Qed.

Lemma linear_throw {A} e L : linear (S := S) (A := A) (throw e) L.
Proof. intros w. split; [apply prefix_nil | intros a; discriminate]. Qed.

Lemma linear_lift {A} (r : Exn + A) : linear (S := S) (lift r) [].
Proof. destruct r; [apply linear_throw | apply linear_ret]. Qed.

Lemma linear_console_log line : linear (S := S) (console_log line) [].
Proof. intros w. by split. Qed.

Lemma linear_alloc c : linear (S := S) (alloc c) [].
Proof. intros w. by split. Qed.

Lemma linear_sleep ms : linear (S := S) (sleep ms) [Delay ms].
Proof. intros w. by split. Qed.

Lemma linear_call {A} req (op : S -> (Exn + A) * S) st :
  (forall r, step_of (SdkCall req r) = Some st) -> linear (call req op) [st].
Proof.
  intros Hst w. unfold call.
  destruct (op (service w)) as [[e|a] s']; simpl; unfold steps; simpl;
    [specialize (Hst (Some e)) | specialize (Hst None)];
    simpl in Hst; rewrite Hst; by split.
Qed.

Lemma linear_call_aside {A} req (op : S -> (Exn + A) * S) :
  (forall r, step_of (SdkCall req r) = None) -> linear (call req op) [].
Proof.
  intros Hst w. unfold call.
  destruct (op (service w)) as [[e|a] s']; simpl; unfold steps; simpl;
    [specialize (Hst (Some e)) | specialize (Hst None)];
    simpl in Hst; rewrite Hst; by split.
Qed.

Lemma linear_search_call text l : linear (search_call sdk text l) [Query text].
Proof.
  intros w. unfold search_call.
  destruct (search sdk text l (heap w) (service w)) as [[[e|r] h'] s']; by split.
Qed.

Lemma linear_for_await items failure :
  linear (S := S) (for_await items failure print_document) [].
Proof.
  intros w. rewrite for_await_print. simpl. unfold steps.
  rewrite omap_app. fold (steps (printed items)). rewrite steps_printed.
  by destruct failure.
Qed.

Lemma linear_deleteIndexIfExists name :
  linear (deleteIndexIfExists sdk name) [DeleteIfExists].
Proof.
  intros w. unfold deleteIndexIfExists, try_catch, bind, call.
  destruct (deleteIndex sdk name (service w)) as [[e|[]] s']; by split.
Qed.

Lemma linear_bind {A B} (m : M S A) (k : A -> M S B) L1 L2 :
  linear m L1 -> (forall a, linear (k a) L2) -> linear (bind m k) (L1 ++ L2).
Proof.
  intros Hm Hk w. destruct (Hm w) as [Hpre Hall].
  destruct (m w) as [[[a|e] t1] w1] eqn:Hrun; simpl in *.
  - rewrite (bind_normal _ _ _ _ _ _ Hrun). simpl.
    destruct (Hk a w1) as [Hpre2 Hall2].
    unfold steps in *. rewrite omap_app, (Hall a eq_refl). split.
    + by apply prefix_app.
    + intros b Hb. by rewrite (Hall2 b Hb).
  - rewrite (bind_throw _ _ _ _ _ _ Hrun). simpl. split.
    + by apply prefix_app_r.
    + intros b; discriminate.
Qed.

(** Sequencing with a part that performs no step. *)
Lemma linear_bind_aside {A B} (m : M S A) (k : A -> M S B) L :
  linear m [] -> (forall a, linear (k a) L) -> linear (bind m k) L.
Proof. intros Hm Hk. by apply (linear_bind m k [] L). Qed.

Lemma linear_bind_step {A B} (m : M S A) (k : A -> M S B) st L :
  linear m [st] -> (forall a, linear (k a) L) -> linear (bind m k) (st :: L).
Proof. intros Hm Hk. by apply (linear_bind m k [st] L). Qed.

Ltac aside :=
  first
    [ apply linear_console_log
    | apply linear_alloc
    | apply linear_for_await
    | apply linear_lift
    | apply linear_ret
    | apply linear_call_aside; intros ?; reflexivity ].

Ltac step :=
  first
    [ apply linear_sleep
    | apply linear_search_call
    | apply linear_deleteIndexIfExists
    | apply linear_call; intros ?; reflexivity ].

Ltac linear_step :=
  first
    [ aside
    | step
    | apply linear_bind_aside; [aside | intros ?]
    | apply linear_bind_step; [step | intros ?] ].

Lemma linear_loadData docs : linear (loadData sdk docs) [Upload docs].
Proof.
  unfold loadData. repeat linear_step.
  destruct (results _ !! 0%nat); [aside | apply linear_throw].
Qed.

Lemma linear_query1 sf : linear (query1 sdk sf) [Query "*"].
Proof. unfold query1. repeat linear_step. Qed.

Lemma linear_query2 sf : linear (query2 sdk sf) [Query "wifi"].
Proof. unfold query2. repeat linear_step. Qed.

Lemma linear_query3 sf : linear (query3 sdk sf) [Query "sublime cliff"].
Proof. unfold query3. repeat linear_step. Qed.

Lemma linear_query4 sf : linear (query4 sdk sf) [Query "*"].
Proof. unfold query4. repeat linear_step. Qed.

Lemma linear_query5 : linear (query5 sdk) [Lookup "3"].
Proof. unfold query5. repeat linear_step. Qed.

Lemma linear_sendQueries : linear (sendQueries sdk) query_plan.
Proof.
  unfold sendQueries, query_plan. do 2 linear_step.
  apply linear_bind_step; [apply linear_query1 | intros _].
  apply linear_bind_step; [apply linear_query2 | intros _].
  apply linear_bind_step; [apply linear_query3 | intros _].
  apply linear_bind_step; [apply linear_query4 | intros _].
  apply linear_query5.
Qed.

Lemma linear_main ep key def docs :
  valid_configuration ep key ->
  linear (main sdk ep key def docs) (plan ep key def docs).
Proof.
  intros [Hep Hkey]. unfold main, plan. rewrite Hep, Hkey. simpl.
  do 9 linear_step.
  apply linear_bind_step; [apply linear_loadData | intros _].
  do 5 linear_step.
  apply linear_sendQueries.
Qed.

End Order.

(* ===================================================================== *)
(** ** The queries and their option objects *)
(* ===================================================================== *)

Section Queries.

Context {S : Type} (sdk : Sdk S).

Lemma silent_ret {A} (a : A) : silent (S := S) (ret a).
Proof. by intros w. Qed.

Lemma silent_console_log line : silent (S := S) (console_log line).
Proof. by intros w. Qed.

Lemma silent_for_await items failure :
  silent (S := S) (for_await items failure print_document).
Proof.
  intros w. rewrite for_await_print. simpl. unfold queries, option_objects.
  rewrite !omap_app.
  fold (queries (printed items)). fold (option_objects (printed items)).
  rewrite queries_printed, option_objects_printed. by destruct failure.
Qed.

Lemma silent_bind {A B} (m : M S A) (k : A -> M S B) :
  silent m -> (forall a, silent (k a)) -> silent (bind m k).
Proof.
  intros Hm Hk w. destruct (Hm w) as (Hq & Ho & Hh).
  destruct (m w) as [[[a|e] t1] w1] eqn:Hrun; simpl in *.
  - rewrite (bind_normal _ _ _ _ _ _ Hrun). simpl.
    destruct (Hk a w1) as (Hq2 & Ho2 & Hh2).
    unfold queries, option_objects in *. rewrite !omap_app.
    rewrite Hq, Ho, Hq2, Ho2. repeat split. congruence.
  - by rewrite (bind_throw _ _ _ _ _ _ Hrun).
Qed.

(** A [search] followed by the printing of its results is one query. *)
Lemma search_then text l (k : SearchResults -> M S unit) w :
  (forall r, silent (k r)) ->
  let run := bind (search_call sdk text l) k w in
  queries run.1.2 = [SearchQuery text (read_options (heap w) l)] /\
  option_objects run.1.2 = [l] /\
  heap run.2 = (search sdk text l (heap w) (service w)).1.2.
Proof.
  intros Hk. unfold bind, search_call.
  destruct (search sdk text l (heap w) (service w)) as [[[e|r] h'] s']; simpl.
  - done.
  - destruct (Hk r (Build_World s' h')) as (Hq & Ho & Hh).
    destruct (k r _) as [[c t] w']; simpl in *.
    fold (queries t). fold (option_objects t). by rewrite Hq, Ho.
Qed.

Lemma fresh_lookup (h : gmap loc Cell) : h !! fresh (dom h) = None.
Proof. apply not_elem_of_dom, is_fresh. Qed.

Lemma read_options_cell (h : gmap loc Cell) l o :
  h !! l = Some (OptionsCell o) ->
  read_options h l =
    Some {| v_includeTotalCount := includeTotalCount o;
            v_select := select o ≫= read_array h;
            v_filter := filter o;
            v_orderBy := orderBy o ≫= read_array h;
            v_searchFields := searchFields o ≫= read_array h;
            v_facets := facets o ≫= read_array h |}.
Proof. intros H. unfold read_options. by rewrite H. Qed.

Lemma read_array_cell (h : gmap loc Cell) l ro xs :
  h !! l = Some (ArrayCell ro xs) -> read_array h l = Some xs.
Proof. intros H. unfold read_array. by rewrite H. Qed.

Ltac silent_tail :=
  intros ?; repeat first
    [ apply silent_bind; [| intros ?]
    | apply silent_for_await
    | apply silent_console_log
    | apply silent_ret ].

Lemma query1_block sf : query_block sdk sf (SearchQuery "*" (Some options1)) (query1 sdk sf).
Proof.
  intros w Hsf. unfold holds_selectFields in *. unfold query1.
  rewrite bind_alloc.
  set (l := fresh (dom (heap w))).
  pose proof (fresh_lookup (heap w)) as Hl. fold l in Hl.
  assert (sf <> l) as Hne by congruence.
  match goal with |- context [bind (search_call sdk ?text l) ?k ?w1] =>
    destruct (search_then text l k w1) as (Hq & Ho & Hh); [silent_tail |]
  end.
  exists l. rewrite Hq, Ho, Hh. simpl.
  split; [| split; [done |]; split; [by apply not_elem_of_dom |]; split].
  - rewrite (read_options_cell _ _ _ (lookup_insert_eq _ _ _)). simpl.
    rewrite (read_array_cell _ sf true selectFields_elems); [done |].
    by rewrite lookup_insert_ne.
  - intros Hro. apply Hro. by rewrite lookup_insert_ne.
  - intros Hkeep. split.
    + etrans; [| apply Hkeep]. set_solver.
    + apply Hkeep. set_solver.
Qed.

Ltac heap_lookup :=
  repeat first
    [ rewrite lookup_insert_eq
    | rewrite lookup_insert_ne by congruence ].

Ltac one_query l :=
  match goal with |- context [bind (search_call sdk ?text l) ?k ?w1] =>
    let Hq := fresh "Hq" in
    let Ho := fresh "Ho" in
    let Hh := fresh "Hh" in
    destruct (search_then text l k w1) as (Hq & Ho & Hh); [silent_tail |];
    exists l; simpl; rewrite Hq, Ho, Hh; simpl
  end.

Lemma query2_block sf :
  query_block sdk sf (SearchQuery "wifi" (Some (options2 sdk))) (query2 sdk sf).
Proof.
  intros w Hsf. unfold holds_selectFields in *. unfold query2.
  rewrite bind_console_log, !bind_alloc. simpl.
  set (a := fresh (dom (heap w))).
  set (l := fresh (dom (<[a := _]> (heap w)))).
  pose proof (fresh_lookup (heap w)) as Ha. fold a in Ha.
  pose proof (fresh_lookup (<[a := ArrayCell false ["Rating desc"]]> (heap w))) as Hl.
  fold l in Hl. apply lookup_insert_None in Hl as [Hl Hal].
  assert (sf <> a) by congruence. assert (sf <> l) by congruence.
  one_query l.
  split; [| split; [done |]; split; [by apply not_elem_of_dom |]; split].
  - rewrite (read_options_cell _ _ _ (lookup_insert_eq _ _ _)). simpl.
    rewrite (read_array_cell _ sf true selectFields_elems) by (by heap_lookup).
    rewrite (read_array_cell _ a false ["Rating desc"]) by (by heap_lookup).
    done.
  - intros Hro. apply Hro. by heap_lookup.
  - intros Hkeep. split.
    + etrans; [| apply Hkeep]. set_solver.
    + apply Hkeep. set_solver.
Qed.

Lemma query3_block sf :
  query_block sdk sf (SearchQuery "sublime cliff" (Some options3)) (query3 sdk sf).
Proof.
  intros w Hsf. unfold holds_selectFields in *. unfold query3.
  rewrite bind_console_log, !bind_alloc. simpl.
  set (a := fresh (dom (heap w))).
  set (l := fresh (dom (<[a := _]> (heap w)))).
  pose proof (fresh_lookup (heap w)) as Ha. fold a in Ha.
  pose proof (fresh_lookup (<[a := ArrayCell true ["HotelName"]]> (heap w))) as Hl.
  fold l in Hl. apply lookup_insert_None in Hl as [Hl Hal].
  assert (sf <> a) by congruence. assert (sf <> l) by congruence.
  one_query l.
  split; [| split; [done |]; split; [by apply not_elem_of_dom |]; split].
  - rewrite (read_options_cell _ _ _ (lookup_insert_eq _ _ _)). simpl.
    rewrite (read_array_cell _ sf true selectFields_elems) by (by heap_lookup).
    rewrite (read_array_cell _ a true ["HotelName"]) by (by heap_lookup).
    done.
  - intros Hro. apply Hro. by heap_lookup.
  - intros Hkeep. split.
    + etrans; [| apply Hkeep]. set_solver.
    + apply Hkeep. set_solver.
Qed.

Lemma query4_block sf :
  query_block sdk sf (SearchQuery "*" (Some options4)) (query4 sdk sf).
Proof.
  intros w Hsf. unfold holds_selectFields in *. unfold query4.
  rewrite bind_console_log, !bind_alloc. simpl.
  set (a := fresh (dom (heap w))).
  set (b := fresh (dom (<[a := _]> (heap w)))).
  set (l := fresh (dom (<[b := _]> (<[a := _]> (heap w))))).
  pose proof (fresh_lookup (heap w)) as Ha. fold a in Ha.
  pose proof (fresh_lookup (<[a := ArrayCell false ["Category"]]> (heap w))) as Hb.
  fold b in Hb. apply lookup_insert_None in Hb as [Hb Hab].
  pose proof (fresh_lookup (<[b := ArrayCell true ["HotelName"]]>
                             (<[a := ArrayCell false ["Category"]]> (heap w)))) as Hl.
  fold l in Hl.
  apply lookup_insert_None in Hl as [Hl Hbl].
  apply lookup_insert_None in Hl as [Hl Hal].
  assert (sf <> a) by congruence. assert (sf <> b) by congruence.
  assert (sf <> l) by congruence.
  one_query l.
  split; [| split; [done |]; split; [by apply not_elem_of_dom |]; split].
  - rewrite (read_options_cell _ _ _ (lookup_insert_eq _ _ _)). simpl.
    rewrite (read_array_cell _ sf true selectFields_elems) by (by heap_lookup).
    rewrite (read_array_cell _ a false ["Category"]) by (by heap_lookup).
    rewrite (read_array_cell _ b true ["HotelName"]) by (by heap_lookup).
    done.
  - intros Hro. apply Hro. by heap_lookup.
  - intros Hkeep. split.
    + etrans; [| apply Hkeep]. set_solver.
    + apply Hkeep. set_solver.
Qed.

(** The lookup is one query, takes no option object and leaves the heap
    as it is. *)
Lemma query5_run w :
  queries (query5 sdk w).1.2 = [KeyLookup "3"] /\
  option_objects (query5 sdk w).1.2 = [] /\
  heap (query5 sdk w).2 = heap w.
Proof.
  unfold query5. rewrite bind_console_log. simpl. unfold bind, call.
  destruct (getDocument sdk "3" (service w)) as [[e|d] s']; by simpl.
Qed.

End Queries.

Section Composition.

Context {S : Type} (sdk : Sdk S).

Lemma asks_bind {A B} sf (m : M S A) (k : A -> M S B) qs1 qs2 :
  asks sf m qs1 -> (forall a, asks sf (k a) qs2) -> asks sf (bind m k) (qs1 ++ qs2).
Proof.
  intros Hm Hk w Hsf. destruct (Hm w Hsf) as (Hsf1 & Hpre & Hall).
  destruct (m w) as [[[a|e] t1] w1] eqn:Hrun; simpl in *.
  - rewrite (bind_normal _ _ _ _ _ _ Hrun). simpl.
    destruct (Hk a w1 Hsf1) as (Hsf2 & Hpre2 & Hall2).
    unfold queries in *. rewrite omap_app, (Hall a eq_refl).
    split; [done |]. split.
    + by apply prefix_app.
    + intros b Hb. by rewrite (Hall2 b Hb).
  - rewrite (bind_throw _ _ _ _ _ _ Hrun). simpl.
    split; [done |]. split.
    + by apply prefix_app_r.
    + intros b; discriminate.
Qed.

Lemma asks_block sf q (m : M S unit) :
  respects_readonly sdk -> query_block sdk sf q m -> asks sf m [q].
Proof.
  intros Hro Hm w Hsf. destruct (Hm w Hsf) as (l & Hq & _ & _ & Hkeep & _).
  rewrite Hq. split; [by apply Hkeep |]. by split.
Qed.

Lemma asks_query5 sf : asks sf (query5 sdk) [KeyLookup "3"].
Proof.
  intros w Hsf. destruct (query5_run sdk w) as (Hq & _ & Hh).
  unfold holds_selectFields. rewrite Hq, Hh. by split.
Qed.




(** [sendQueries] up to its first query: the array [selectFields] is a
    new object. *)
Lemma sendQueries_start w :
  sendQueries sdk w =
    let sf := fresh (dom (heap w)) in
    let run :=
      (query1 sdk sf ;;; query2 sdk sf ;;; query3 sdk sf ;;;
       query4 sdk sf ;;; query5 sdk)
        (Build_World (service w) (<[sf := ArrayCell true selectFields_elems]> (heap w))) in
    (run.1.1, ConsoleLog [Lit "Query #1 - search everything:"] :: run.1.2, run.2).
Proof. unfold sendQueries. by rewrite bind_console_log, bind_alloc. Qed.

Lemma asks_queries sf :
  respects_readonly sdk ->
  asks sf (query1 sdk sf ;;; query2 sdk sf ;;; query3 sdk sf ;;;
           query4 sdk sf ;;; query5 sdk)
       (five_queries sdk).
Proof.
  intros Hro. unfold five_queries.
  apply (asks_bind sf _ _ [_] [_; _; _; _]);
    [apply asks_block, query1_block; done | intros _].
  apply (asks_bind sf _ _ [_] [_; _; _]);
    [apply asks_block, query2_block; done | intros _].
  apply (asks_bind sf _ _ [_] [_; _]);
    [apply asks_block, query3_block; done | intros _].
  apply (asks_bind sf _ _ [_] [_]);
    [apply asks_block, query4_block; done | intros _].
  apply asks_query5.
Qed.


End Composition.

(* ===================================================================== *)
(** ** From the start of [main] to the creation of the index *)
(* ===================================================================== *)

Section Head.

Context {S : Type} (sdk : Sdk S).

Lemma bind_call {A B} req (op : S -> (Exn + A) * S) (k : A -> M S B) w a s' :
  op (service w) = (inr a, s') ->
  let run := k a (Build_World s' (heap w)) in
  bind (call req op) k w = (run.1.1, SdkCall req None :: run.1.2, run.2).
Proof.
  intros Hop. unfold bind, call. rewrite Hop.
  by destruct (k a _) as [[c t] w'].
Qed.

Lemma bind_call_failed {A B} req (op : S -> (Exn + A) * S) (k : A -> M S B) w e s' :
  op (service w) = (inl e, s') ->
  bind (call req op) k w =
    (Throw e, [SdkCall req (Some e)], Build_World s' (heap w)).
Proof. intros Hop. unfold bind, call. by rewrite Hop. Qed.

Lemma deleteIndexIfExists_run name w r s' :
  deleteIndex sdk name (service w) = (r, s') ->
  deleteIndexIfExists sdk name w =
    (Normal tt,
     [SdkCall (DeleteIndex name) (failure_of r);
      match r with inl _ => missing_index_line | inr _ => deleting_line end],
     Build_World s' (heap w)).
Proof.
  intros Hop. unfold deleteIndexIfExists, try_catch, bind, call.
  rewrite Hop. by destruct r as [e|[]].
Qed.

(** The events of [main] once the client is built and the name of the
    index is read. *)
Lemma main_to_creation ep key def docs w s1 name r s2 :
  valid_configuration ep key ->
  newSearchIndexClient sdk ep key (service w) = (inr tt, s1) ->
  get_prop def "name" = inr name ->
  deleteIndex sdk name s1 = (r, s2) ->
  exists rest,
    (main sdk ep key def docs w).1.2 =
      [running_line; SdkCall (NewSearchIndexClient ep key) None; checking_line;
       SdkCall (DeleteIndex name) (failure_of r);
       match r with inl _ => missing_index_line | inr _ => deleting_line end;
       creating_line;
       SdkCall (CreateIndex def) (failure_of (createIndex sdk def s2).1)] ++ rest.
Proof.
  intros [Hep Hkey] Hnew Hname Hdel. unfold main.
  rewrite Hep, Hkey, Hname. simpl.
  rewrite bind_console_log. simpl.
  rewrite (bind_call _ _ _ _ _ _ Hnew). simpl.
  unfold bind at 1. simpl.
  rewrite bind_console_log. simpl.
  rewrite (bind_normal _ _ _ _ _ _
             (deleteIndexIfExists_run name (Build_World s1 (heap w)) r s2 Hdel)).
  simpl. rewrite bind_console_log. simpl.
  destruct (createIndex sdk def s2) as [[e|index] s3] eqn:Hcreate.
  - rewrite (bind_call_failed _ _ _ (Build_World s2 (heap w)) _ _ Hcreate).
    by exists [].
  - rewrite (bind_call _ _ _ (Build_World s2 (heap w)) _ _ Hcreate). simpl.
    by eexists.
Qed.

Lemma top_level_run c w compl t w' :
  main sdk (endpoint c) (apiKey c) (hotelIndexDefinition c) (hotels c) w
    = (compl, t, w') ->
  top_level sdk c w =
    match compl with
    | Normal _ => (Normal tt, t, w')
    | Throw e => (Normal tt, t ++ [ConsoleError error_label e], w')
    end.
Proof.
  intros Hrun. unfold top_level, promise_catch. rewrite Hrun.
  by destruct compl as [[]|e].
Qed.

(** An event that occurs once in a list splits it in one way. *)
Lemma split_unique (P : Event -> bool) l1 x l2 pre y post :
  l1 ++ x :: l2 = pre ++ y :: post ->
  P y = true ->
  Forall (fun ev => P ev = false) l1 ->
  Forall (fun ev => P ev = false) l2 ->
  pre = l1 /\ y = x /\ post = l2.
Proof.
  revert pre. induction l1 as [|a l1 IH]; intros pre Heq Hy H1 H2.
  - destruct pre as [|b pre]; simpl in Heq.
    + by inversion Heq.
    + inversion Heq; subst.
      apply Forall_app in H2 as [_ H2]. apply Forall_cons in H2 as [H2 _].
      congruence.
  - destruct pre as [|b pre]; simpl in Heq.
    + inversion Heq; subst. apply Forall_cons in H1 as [H1 _]. congruence.
    + inversion Heq; subst. apply Forall_cons in H1 as [_ H1].
      destruct (IH pre) as (-> & -> & ->); auto.
Qed.

Lemma no_deletion_in t L :
  steps t `prefix_of` L -> DeleteIfExists ∉ L ->
  Forall (fun ev => is_deletion ev = false) t.
Proof.
  intros [k Hk] HL. apply Forall_forall. intros ev Hev.
  destruct (is_deletion ev) eqn:Hdel; [| done].
  exfalso. apply HL. rewrite Hk. apply elem_of_app. left.
  unfold steps. apply list_elem_of_omap. exists ev. split; [done |].
  by destruct ev as [| |[] ?|].
Qed.

(** In a run of [main], a deletion that fails is followed by its message
    and by the creation of the index. *)
Lemma main_after_failed_deletion ep key def docs w pre name e post :
  (main sdk ep key def docs w).1.2 = pre ++ SdkCall (DeleteIndex name) (Some e) :: post ->
  exists r rest,
    post = missing_index_line :: creating_line :: SdkCall (CreateIndex def) r :: rest.
Proof.
  intros Ht.
  assert (In (SdkCall (DeleteIndex name) (Some e)) (main sdk ep key def docs w).1.2)
    as Hin by (rewrite Ht; apply in_elt).
  destruct (negb (truthy_string ep) || negb (truthy_string key)) eqn:Hcfg.
  { exfalso. revert Hin. unfold main. rewrite Hcfg.
    rewrite !bind_console_log. simpl. intuition discriminate. }
  apply orb_false_elim in Hcfg as [Hep Hkey].
  apply negb_false_iff in Hep, Hkey.
  destruct (newSearchIndexClient sdk ep key (service w)) as [[e1|[]] s1] eqn:Hnew.
  { exfalso. revert Hin. unfold main. rewrite Hep, Hkey. simpl.
    rewrite bind_console_log. simpl.
    rewrite (bind_call_failed _ _ _ _ _ _ Hnew). simpl. intuition discriminate. }
  destruct (get_prop def "name") as [e2|indexName] eqn:Hname.
  { exfalso. revert Hin. unfold main. rewrite Hep, Hkey, Hname. simpl.
    rewrite bind_console_log. simpl.
    rewrite (bind_call _ _ _ _ _ _ Hnew). simpl. intuition discriminate. }
  destruct (deleteIndex sdk indexName s1) as [r s2] eqn:Hdel.
  destruct (main_to_creation ep key def docs w s1 indexName r s2)
    as [rest Hrun]; [done .. |].
  pose proof (linear_main sdk ep key def docs (conj Hep Hkey) w) as [Hlin _].
  rewrite Hrun in Ht, Hlin.
  change ([running_line; SdkCall (NewSearchIndexClient ep key) None; checking_line;
           SdkCall (DeleteIndex indexName) (failure_of r);
           match r with inl _ => missing_index_line | inr _ => deleting_line end;
           creating_line;
           SdkCall (CreateIndex def) (failure_of (createIndex sdk def s2).1)] ++ rest)
    with ([running_line; SdkCall (NewSearchIndexClient ep key) None; checking_line]
          ++ SdkCall (DeleteIndex indexName) (failure_of r)
          :: (match r with inl _ => missing_index_line | inr _ => deleting_line end
              :: creating_line
              :: SdkCall (CreateIndex def) (failure_of (createIndex sdk def s2).1)
              :: rest)) in Ht.
  apply (split_unique is_deletion) in Ht as (_ & Hev & ->); try done.
  - inversion Hev as [[Hn Hr]]. destruct r; [| discriminate]. by eexists _, _.
  - by repeat constructor.
  - assert (Forall (fun ev => is_deletion ev = false) rest) as Hrest.
    { apply (no_deletion_in rest
               ([Upload docs; Delay 1000; CountDocuments] ++ query_plan)).
      - destruct r; simpl in Hlin; unfold plan in Hlin; simpl in Hlin;
          do 3 apply prefix_cons_inv_2 in Hlin; done.
      - unfold query_plan. set_solver. }
    destruct r; by repeat constructor.
Qed.

End Head.

(* ===================================================================== *)
(** ** Start-up *)
(* ===================================================================== *)

Lemma startup_constants inp c :
  startup inp = inr c ->
  endpoint c = or_empty (process_env inp !! "SEARCH_API_ENDPOINT") /\
  apiKey c = or_empty (process_env inp !! "SEARCH_API_KEY") /\
  hotelData inp = inr (match hotelData inp with inr v => v | inl _ => JUndefined end) /\
  indexDefinition inp = inr (hotelIndexDefinition c).
Proof.
  unfold startup. intros H.
  destruct (hotelData inp) as [e|hd]; [discriminate |].
  destruct (indexDefinition inp) as [e|idef]; [discriminate |].
  destruct (negb (truthy hd) || negb (truthy idef)); [discriminate |].
  destruct (get_prop hd "value") as [e|hs]; [discriminate |].
  by inversion H.
Qed.

Lemma or_empty_missing x : missing x -> truthy_string (or_empty x) = false.
Proof. by intros [-> | ->]. Qed.

Lemma program_run {S} (sdk : Sdk S) inp c s0 compl t w' :
  startup inp = inr c ->
  main sdk (endpoint c) (apiKey c) (hotelIndexDefinition c) (hotels c)
       (Build_World s0 ∅) = (compl, t, w') ->
  program sdk inp s0 =
    {| output := match compl with
                 | Normal _ => t
                 | Throw e => t ++ [ConsoleError error_label e]
                 end;
       uncaught := None;
       exit_code := 0 |}.
Proof.
  intros Hstart Hrun. unfold program. rewrite Hstart.
  rewrite (top_level_run sdk c _ _ _ _ Hrun). by destruct compl.
Qed.

(** The two SDKs above keep to what [search] is relied on for. *)
Lemma scripted_respects_readonly sc : respects_readonly (scripted sc).
Proof.
  intros text l h s a xs Ha. simpl. destruct (sc_scribble sc); [| done].
  destruct (h !! l) as [[ro ys|o]|] eqn:Hl; try done.
  rewrite lookup_insert_ne; [done |]. congruence.
Qed.


(* ===================================================================== *)
(** ** What the queries hand to [search] *)
(* ===================================================================== *)

Section Recording.

Context {S : Type} (sdk : Sdk S).

(** *** Recording changes nothing *)










(** *** The option objects handed over *)







Hypothesis Hro : respects_readonly sdk.












End Recording.

(* ===================================================================== *)
(** ** The properties of the quickstart *)
(* ===================================================================== *)

(** C1.  In every run of [main], the only failure recovered locally is that
    of deleting the index: a failed deletion is followed by its message and
    by the creation of the index, while the failure of any other call
    (client, creation, upload, count, a search or a page of its results,
    the lookup) is the last event of [main], which throws that error, and
    the top-level handler receives it. *)
Theorem only_the_deletion_failure_is_recovered {S} (sdk : Sdk S)
    (c : Constants) w compl t w' :
  main sdk (endpoint c) (apiKey c) (hotelIndexDefinition c) (hotels c) w
    = (compl, t, w') ->
  forall pre req e post,
    t = pre ++ SdkCall req (Some e) :: post ->
    match req with
    | DeleteIndex _ =>
        exists r rest,
          post = missing_index_line :: creating_line
                 :: SdkCall (CreateIndex (hotelIndexDefinition c)) r :: rest
    | _ =>
        post = [] /\ compl = Throw e /\
        top_level sdk c w = (Normal tt, t ++ [ConsoleError error_label e], w')
    end.
Proof.
  intros Hrun pre req e post Ht.
  pose proof (terminal_main sdk (endpoint c) (apiKey c) (hotelIndexDefinition c)
                (hotels c) w) as Hend.
  rewrite Hrun in Hend. simpl in Hend.
  assert (fatal (SdkCall req (Some e)) = Some e ->
          post = [] /\ compl = Throw e /\
          top_level sdk c w = (Normal tt, t ++ [ConsoleError error_label e], w'))
    as Hfatal.
  { intros Hf. destruct (ends_well_last fatal _ _ _ _ _ _ Hend Ht Hf) as [-> ->].
    repeat split. by rewrite (top_level_run sdk c _ _ _ _ Hrun). }
  destruct req; try (by apply Hfatal).
  eapply (main_after_failed_deletion sdk). rewrite Hrun. exact Ht.
Qed.

(** C2 (as amended).  When an error propagates out of [main], the handler
    prints it with the label of the sample and the process ends with
    status 0, as it does when [main] completes: nothing sets another
    status. *)
Theorem error_path_prints_and_exits_with_zero {S} (sdk : Sdk S) inp c s0 compl t w' :
  startup inp = inr c ->
  main sdk (endpoint c) (apiKey c) (hotelIndexDefinition c) (hotels c)
       (Build_World s0 ∅) = (compl, t, w') ->
  output (program sdk inp s0) =
    match compl with
    | Normal _ => t
    | Throw e => t ++ [ConsoleError error_label e]
    end /\
  uncaught (program sdk inp s0) = None /\
  exit_code (program sdk inp s0) = 0.
Proof.
  intros Hstart Hrun. by rewrite (program_run sdk inp c s0 _ _ _ Hstart Hrun).
Qed.

(** C3.  When the endpoint or the key is missing from the environment,
    [main] prints its two lines and returns: it throws nothing, makes no
    call to the SDK and leaves the service as it is; the process ends with
    status 0. *)
Theorem missing_configuration_returns_quietly {S} (sdk : Sdk S) inp c w :
  startup inp = inr c ->
  missing (process_env inp !! "SEARCH_API_ENDPOINT") \/
  missing (process_env inp !! "SEARCH_API_KEY") ->
  main sdk (endpoint c) (apiKey c) (hotelIndexDefinition c) (hotels c) w
    = (Normal tt, [running_line; configuration_line], w) /\
  forall s0,
    program sdk inp s0 =
      {| output := [running_line; configuration_line];
         uncaught := None; exit_code := 0 |}.
Proof.
  intros Hstart Hmiss.
  destruct (startup_constants inp c Hstart) as (Hep & Hkey & _).
  assert (negb (truthy_string (endpoint c)) || negb (truthy_string (apiKey c)) = true)
    as Hcfg.
  { rewrite Hep, Hkey.
    destruct Hmiss as [Hm | Hm]; rewrite (or_empty_missing _ Hm); simpl; [done |].
    apply orb_true_r. }
  assert (forall v, main sdk (endpoint c) (apiKey c) (hotelIndexDefinition c)
                      (hotels c) v = (Normal tt, [running_line; configuration_line], v))
    as Hmain.
  { intros v. unfold main. by rewrite Hcfg. }
  split; [apply Hmain |]. intros s0.
  by rewrite (program_run sdk inp c s0 _ _ _ Hstart (Hmain _)).
Qed.

(** C4.  Whatever the name of the index: when the service answers the
    deletion with a not-found failure, [deleteIndexIfExists] returns
    normally after printing its message, and [main] goes on to create the
    index. *)
Theorem reset_of_a_missing_index_raises_nothing {S} (sdk : Sdk S)
    ep key def docs name w s1 message s2 :
  valid_configuration ep key ->
  newSearchIndexClient sdk ep key (service w) = (inr tt, s1) ->
  get_prop def "name" = inr name ->
  deleteIndex sdk name s1 = (inl (RestError 404 message), s2) ->
  deleteIndexIfExists sdk name (Build_World s1 (heap w)) =
    (Normal tt,
     [SdkCall (DeleteIndex name) (Some (RestError 404 message)); missing_index_line],
     Build_World s2 (heap w)) /\
  exists rest,
    (main sdk ep key def docs w).1.2 =
      [running_line; SdkCall (NewSearchIndexClient ep key) None; checking_line;
       SdkCall (DeleteIndex name) (Some (RestError 404 message)); missing_index_line;
       creating_line;
       SdkCall (CreateIndex def) (failure_of (createIndex sdk def s2).1)] ++ rest.
Proof.
  intros Hcfg Hnew Hname Hdel. split.
  - by rewrite (deleteIndexIfExists_run sdk name (Build_World s1 (heap w)) _ _ Hdel).
  - apply (main_to_creation sdk ep key def docs w s1 name _ s2 Hcfg Hnew Hname Hdel).
Qed.

(** C8.  When the import of the index schema or of the record set fails,
    or yields a falsy value, the module body throws before anything else
    happens: no output, an uncaught error, status 1. *)
Theorem missing_document_is_fatal_at_startup {S} (sdk : Sdk S) inp s0 :
  no_value (hotelData inp) \/ no_value (indexDefinition inp) ->
  exists e,
    startup inp = inl e /\
    program sdk inp s0 = {| output := []; uncaught := Some e; exit_code := 1 |}.
Proof.
  intros Hno.
  assert (exists e, startup inp = inl e) as [e He].
  { unfold startup.
    destruct (hotelData inp) as [e|hd]; [by eexists |].
    destruct (indexDefinition inp) as [e|idef]; [by eexists |].
    destruct Hno as [Hno | Hno]; simpl in Hno; rewrite Hno; simpl.
    - by eexists.
    - rewrite orb_true_r. by eexists. }
  exists e. split; [done |]. unfold program. by rewrite He.
Qed.

(** C9.  Whatever error the deletion throws (not only a not-found
    failure), [deleteIndexIfExists] prints that the index does not exist
    yet and returns normally, and [main] goes on to create the index. *)
Theorem deletion_swallows_every_error {S} (sdk : Sdk S)
    ep key def docs name w s1 e s2 :
  valid_configuration ep key ->
  newSearchIndexClient sdk ep key (service w) = (inr tt, s1) ->
  get_prop def "name" = inr name ->
  deleteIndex sdk name s1 = (inl e, s2) ->
  deleteIndexIfExists sdk name (Build_World s1 (heap w)) =
    (Normal tt, [SdkCall (DeleteIndex name) (Some e); missing_index_line],
     Build_World s2 (heap w)) /\
  exists rest,
    (main sdk ep key def docs w).1.2 =
      [running_line; SdkCall (NewSearchIndexClient ep key) None; checking_line;
       SdkCall (DeleteIndex name) (Some e); missing_index_line;
       creating_line;
       SdkCall (CreateIndex def) (failure_of (createIndex sdk def s2).1)] ++ rest.
Proof.
  intros Hcfg Hnew Hname Hdel. split.
  - by rewrite (deleteIndexIfExists_run sdk name (Build_World s1 (heap w)) _ _ Hdel).
  - apply (main_to_creation sdk ep key def docs w s1 name _ s2 Hcfg Hnew Hname Hdel).
Qed.

(** A run that reaches the last of the five queries has issued them all. *)
Lemma prefix_of_five_with_lookup {S} (sdk : Sdk S) (qs : list QueryShape) :
  qs `prefix_of` five_queries sdk -> KeyLookup "3" ∈ qs -> qs = five_queries sdk.
Proof.
  intros [k Hk] Hin. unfold five_queries in *.
  destruct qs as [|q1 [|q2 [|q3 [|q4 [|q5 [|q6 qs]]]]]]; simpl in Hk;
    inversion Hk; subst; try done; set_solver.
Qed.

(** C5.  The query runner issues its queries in the order of the five
    shapes, each with exactly its options: every run issues a prefix of
    them, a run that completes or that reaches the lookup has issued all
    five, and a lookup that fails ends [sendQueries] with its error. *)
Theorem query_runner_issues_the_five_queries {S} (sdk : Sdk S) w compl t w' :
  respects_readonly sdk ->
  sendQueries sdk w = (compl, t, w') ->
  queries t `prefix_of` five_queries sdk /\
  (forall a, compl = Normal a -> queries t = five_queries sdk) /\
  (forall pre r post,
     t = pre ++ SdkCall (GetDocument "3") r :: post ->
     queries t = five_queries sdk /\
     forall e, r = Some e -> post = [] /\ compl = Throw e).
Proof.
  intros Hro Hrun.
  assert (queries t `prefix_of` five_queries sdk /\
          (forall a, compl = Normal a -> queries t = five_queries sdk))
    as [Hpre Hall].
  { rewrite sendQueries_start in Hrun. simpl in Hrun.
    set (sf := fresh (dom (heap w))) in Hrun.
    destruct (asks_queries sdk sf Hro
                (Build_World (service w)
                   (<[sf := ArrayCell true selectFields_elems]> (heap w))))
      as (_ & Hpre & Hall).
    { unfold holds_selectFields. simpl. apply lookup_insert_eq. }
    inversion Hrun; subst. by split. }
  split; [done |]. split; [done |].
  intros pre r post Ht. split.
  - apply prefix_of_five_with_lookup; [done |].
    unfold queries. apply list_elem_of_omap.
    exists (SdkCall (GetDocument "3") r). split; [| done].
    rewrite Ht. set_solver.
  - intros e ->.
    pose proof (terminal_sendQueries sdk fatal (or_introl eq_refl) w) as Hend.
    rewrite Hrun in Hend. simpl in Hend.
    by apply (ends_well_last fatal _ _ _ _ _ _ Hend Ht).
Qed.

(** C6.  With a valid configuration, the steps of [main] run in the order
    of the plan (client from the configuration, deletion if the index
    exists, creation from the schema, upload, delay of one second, count,
    the four searches and the lookup), none skipped and none repeated:
    every run performs a prefix of the plan, and a run that completes
    performs all of it. *)
Theorem steps_run_in_the_order_of_the_plan {S} (sdk : Sdk S)
    ep key def docs w compl t w' :
  valid_configuration ep key ->
  main sdk ep key def docs w = (compl, t, w') ->
  steps t `prefix_of` plan ep key def docs /\
  (forall a, compl = Normal a -> steps t = plan ep key def docs).
Proof.
  intros Hcfg Hrun.
  pose proof (linear_main sdk ep key def docs Hcfg w) as Hlin.
  by rewrite Hrun in Hlin.
Qed.


(** C10.  [loadData] reads the first per-record result without a guard:
    when the upload answers with an empty list of results, [loadData]
    prints the result and then throws instead of reporting success; in a
    run of [main] nothing follows, [main] throws that error and the
    top-level handler receives it. *)
Theorem empty_upload_result_throws {S} (sdk : Sdk S) (c : Constants) v r s' :
  mergeOrUploadDocuments sdk (hotels c) (service v) = (inr r, s') ->
  results r = [] ->
  loadData sdk (hotels c) v =
    (Throw no_first_result,
     [uploading_line; SdkCall (MergeOrUploadDocuments (hotels c)) None;
      ConsoleLog [JsonResult r]],
     Build_World s' (heap v)) /\
  forall w compl t w' pre post,
    main sdk (endpoint c) (apiKey c) (hotelIndexDefinition c) (hotels c) w
      = (compl, t, w') ->
    t = pre ++ ConsoleLog [JsonResult r] :: post ->
    post = [] /\ compl = Throw no_first_result /\
    top_level sdk c w =
      (Normal tt, t ++ [ConsoleError error_label no_first_result], w').
Proof.
  intros Hup Hres. split.
  - unfold loadData. rewrite bind_console_log. simpl.
    rewrite (bind_call _ _ _ _ _ _ Hup). simpl.
    rewrite bind_console_log. simpl. by rewrite Hres.
  - intros w compl t w' pre post Hrun Ht.
    pose proof (unreportable_main sdk (endpoint c) (apiKey c)
                  (hotelIndexDefinition c) (hotels c) w) as Hend.
    rewrite Hrun in Hend. simpl in Hend.
    assert (unreportable (ConsoleLog [JsonResult r]) = Some no_first_result) as Hf
      by (simpl; by rewrite Hres).
    destruct (ends_well_last unreportable _ _ _ _ _ _ Hend Ht Hf) as [-> ->].
    repeat split. by rewrite (top_level_run sdk c _ _ _ _ Hrun).
Qed.

(* ===================================================================== *)
(** ** The properties at concrete runs *)
(* ===================================================================== *)

(** The deletion answers not-found and the creation is forbidden: the
    first failure is followed by the creation, the second ends the run. *)
Lemma only_the_deletion_failure_is_recovered_witness :
  let sdk := scripted (with_create (inl forbidden) (with_delete (inl not_found) all_fine)) in
  let c := sample_constants in
  let run := main sdk (endpoint c) (apiKey c) (hotelIndexDefinition c) (hotels c)
                  empty_world in
  (exists r rest,
     [missing_index_line; creating_line;
      SdkCall (CreateIndex sample_index_definition) (Some forbidden)]
     = missing_index_line :: creating_line
       :: SdkCall (CreateIndex (hotelIndexDefinition c)) r :: rest) /\
  run.1.1 = Throw forbidden /\
  top_level sdk c empty_world =
    (Normal tt, run.1.2 ++ [ConsoleError error_label forbidden], run.2).
Proof.
  intros sdk c run.
  assert (main sdk (endpoint c) (apiKey c) (hotelIndexDefinition c) (hotels c)
               empty_world = (run.1.1, run.1.2, run.2)) as Hrun
    by (vm_compute; reflexivity).
  split.
  - apply (only_the_deletion_failure_is_recovered sdk c empty_world _ _ _ Hrun
             [running_line;
              SdkCall (NewSearchIndexClient (endpoint c) (apiKey c)) None;
              checking_line]
             (DeleteIndex (JStr "hotels-quickstart")) not_found).
    vm_compute; reflexivity.
  - apply (only_the_deletion_failure_is_recovered sdk c empty_world _ _ _ Hrun
             [running_line;
              SdkCall (NewSearchIndexClient (endpoint c) (apiKey c)) None;
              checking_line;
              SdkCall (DeleteIndex (JStr "hotels-quickstart")) (Some not_found);
              missing_index_line; creating_line]
             (CreateIndex sample_index_definition) forbidden []).
    vm_compute; reflexivity.
Defined.

(** C2, as stated, fails: here the creation of the index is forbidden,
    [main] throws, the handler prints the error, and the status of the
    process is 0. *)
Lemma error_path_exit_code_is_zero :
  let sdk := scripted (with_create (inl forbidden) all_fine) in
  let c := sample_constants in
  startup sample_inputs = inr c /\
  (main sdk (endpoint c) (apiKey c) (hotelIndexDefinition c) (hotels c)
        empty_world).1.1 = Throw forbidden /\
  last (output (program sdk sample_inputs tt))
    = Some (ConsoleError error_label forbidden) /\
  ~ exit_code (program sdk sample_inputs tt) <> 0.
Proof.
  intros sdk c. repeat split; try (vm_compute; reflexivity).
  intros H. apply H. vm_compute. reflexivity.
Qed.

Lemma error_path_prints_and_exits_with_zero_witness :
  let sdk := scripted (with_create (inl forbidden) all_fine) in
  let c := sample_constants in
  let run := main sdk (endpoint c) (apiKey c) (hotelIndexDefinition c) (hotels c)
                  empty_world in
  output (program sdk sample_inputs tt)
    = run.1.2 ++ [ConsoleError error_label forbidden] /\
  uncaught (program sdk sample_inputs tt) = None /\
  exit_code (program sdk sample_inputs tt) = 0.
Proof.
  intros sdk c run.
  assert (startup sample_inputs = inr c) as Hstart by (vm_compute; reflexivity).
  assert (main sdk (endpoint c) (apiKey c) (hotelIndexDefinition c) (hotels c)
               (Build_World tt ∅) = (Throw forbidden, run.1.2, run.2)) as Hrun
    by (vm_compute; reflexivity).
  exact (error_path_prints_and_exits_with_zero sdk sample_inputs c tt _ _ _
           Hstart Hrun).
Defined.

Lemma missing_configuration_returns_quietly_witness :
  let sdk := scripted all_fine in
  let c := keyless_constants in
  main sdk (endpoint c) (apiKey c) (hotelIndexDefinition c) (hotels c) empty_world
    = (Normal tt, [running_line; configuration_line], empty_world) /\
  forall s0,
    program sdk keyless_inputs s0 =
      {| output := [running_line; configuration_line];
         uncaught := None; exit_code := 0 |}.
Proof.
  intros sdk c.
  apply (missing_configuration_returns_quietly sdk keyless_inputs c empty_world).
  - vm_compute; reflexivity.
  - right. right. vm_compute; reflexivity.
Defined.

Lemma reset_of_a_missing_index_raises_nothing_witness :
  let sdk := scripted (with_delete (inl not_found) all_fine) in
  let c := sample_constants in
  deleteIndexIfExists sdk (JStr "hotels-quickstart") empty_world =
    (Normal tt,
     [SdkCall (DeleteIndex (JStr "hotels-quickstart")) (Some not_found);
      missing_index_line],
     empty_world) /\
  exists rest,
    (main sdk (endpoint c) (apiKey c) (hotelIndexDefinition c) (hotels c)
          empty_world).1.2 =
      [running_line; SdkCall (NewSearchIndexClient (endpoint c) (apiKey c)) None;
       checking_line;
       SdkCall (DeleteIndex (JStr "hotels-quickstart")) (Some not_found);
       missing_index_line; creating_line;
       SdkCall (CreateIndex (hotelIndexDefinition c)) None] ++ rest.
Proof.
  intros sdk c.
  apply (reset_of_a_missing_index_raises_nothing sdk (endpoint c) (apiKey c)
           (hotelIndexDefinition c) (hotels c) (JStr "hotels-quickstart")
           empty_world tt
           "No index with the name 'hotels-quickstart' was found" tt).
  - split; reflexivity.
  - reflexivity.
  - reflexivity.
  - reflexivity.
Defined.

Lemma query_runner_issues_the_five_queries_witness :
  let sdk := scripted (with_document (inl not_found) all_fine) in
  let run := sendQueries sdk empty_world in
  queries run.1.2 = five_queries sdk /\ run.1.1 = Throw not_found.
Proof.
  intros sdk run.
  assert (sendQueries sdk empty_world = (run.1.1, run.1.2, run.2)) as Hrun
    by (vm_compute; reflexivity).
  destruct (query_runner_issues_the_five_queries sdk empty_world _ _ _
              (scripted_respects_readonly _) Hrun) as (_ & _ & Hlookup).
  destruct (Hlookup (removelast run.1.2) (Some not_found) [])
    as [Hall Hfail]; [vm_compute; reflexivity |].
  split; [exact Hall |]. exact (proj2 (Hfail not_found eq_refl)).
Defined.

Lemma steps_run_in_the_order_of_the_plan_witness :
  let sdk := scripted all_fine in
  let c := sample_constants in
  steps (main sdk (endpoint c) (apiKey c) (hotelIndexDefinition c) (hotels c)
              empty_world).1.2
    = plan (endpoint c) (apiKey c) (hotelIndexDefinition c) (hotels c).
Proof.
  intros sdk c.
  set (run := main sdk (endpoint c) (apiKey c) (hotelIndexDefinition c) (hotels c)
                   empty_world).
  assert (run = (Normal tt, run.1.2, run.2)) as Hrun by (vm_compute; reflexivity).
  assert (valid_configuration (endpoint c) (apiKey c)) as Hcfg
    by (split; reflexivity).
  exact (proj2 (steps_run_in_the_order_of_the_plan sdk _ _ _ _ empty_world
                  _ _ _ Hcfg Hrun) tt eq_refl).
Defined.



Lemma missing_document_is_fatal_at_startup_witness :
  exists e,
    startup null_inputs = inl e /\
    program (scripted all_fine) null_inputs tt
      = {| output := []; uncaught := Some e; exit_code := 1 |}.
Proof.
  apply (missing_document_is_fatal_at_startup (scripted all_fine) null_inputs tt).
  left. reflexivity.
Defined.

Lemma deletion_swallows_every_error_witness :
  let sdk := scripted (with_delete (inl forbidden) all_fine) in
  let c := sample_constants in
  deleteIndexIfExists sdk (JStr "hotels-quickstart") empty_world =
    (Normal tt,
     [SdkCall (DeleteIndex (JStr "hotels-quickstart")) (Some forbidden);
      missing_index_line],
     empty_world) /\
  exists rest,
    (main sdk (endpoint c) (apiKey c) (hotelIndexDefinition c) (hotels c)
          empty_world).1.2 =
      [running_line; SdkCall (NewSearchIndexClient (endpoint c) (apiKey c)) None;
       checking_line;
       SdkCall (DeleteIndex (JStr "hotels-quickstart")) (Some forbidden);
       missing_index_line; creating_line;
       SdkCall (CreateIndex (hotelIndexDefinition c)) None] ++ rest.
Proof.
  intros sdk c.
  apply (deletion_swallows_every_error sdk (endpoint c) (apiKey c)
           (hotelIndexDefinition c) (hotels c) (JStr "hotels-quickstart")
           empty_world tt forbidden tt).
  - split; reflexivity.
  - reflexivity.
  - reflexivity.
  - reflexivity.
Defined.

Lemma empty_upload_result_throws_witness :
  let sdk := scripted (with_upload (inr no_results) all_fine) in
  let c := no_hotels_constants in
  let run := main sdk (endpoint c) (apiKey c) (hotelIndexDefinition c) (hotels c)
                  empty_world in
  loadData sdk (hotels c) empty_world =
    (Throw no_first_result,
     [uploading_line; SdkCall (MergeOrUploadDocuments (hotels c)) None;
      ConsoleLog [JsonResult no_results]],
     empty_world) /\
  run.1.1 = Throw no_first_result /\
  top_level sdk c empty_world =
    (Normal tt, run.1.2 ++ [ConsoleError error_label no_first_result], run.2).
Proof.
  intros sdk c run.
  destruct (empty_upload_result_throws sdk c empty_world no_results tt
              eq_refl eq_refl) as [Hload Hmain].
  split; [exact Hload |].
  assert (main sdk (endpoint c) (apiKey c) (hotelIndexDefinition c) (hotels c)
               empty_world = (run.1.1, run.1.2, run.2)) as Hrun
    by (vm_compute; reflexivity).
  apply (Hmain empty_world _ _ _ (removelast run.1.2) [] Hrun).
  vm_compute; reflexivity.
Defined.

(** Why [search] is required to respect the read-only type of [select]:
    the four option objects share the one array [selectFields], so an SDK
    that appended to it would be seen by every later query. *)
Example shared_select_array_is_observable :
  selected <$> queries (sendQueries rogue empty_world).1.2 =
    [Some ["HotelId"; "HotelName"; "Rating"];
     Some ["HotelId"; "HotelName"; "Rating"; "Category"];
     Some ["HotelId"; "HotelName"; "Rating"; "Category"; "Category"];
     Some ["HotelId"; "HotelName"; "Rating"; "Category"; "Category"; "Category"];
     None].
Proof. vm_compute. reflexivity. Qed.

(** A page of results that cannot be fetched ends the run like any other
    failed call: the first query prints one document and stops. *)
Example page_failure_ends_the_run :
  let sdk := scripted (with_search (fun _ => inr two_pages_then_error) all_fine) in
  sendQueries sdk empty_world =
    (Throw (RestError 503 "Service Unavailable"),
     [ConsoleLog [Lit "Query #1 - search everything:"];
      SdkCall (SearchDocuments "*" 2%positive (Some options1)) None;
      ConsoleLog [JsonDoc sample_document];
      SdkCall NextPage (Some (RestError 503 "Service Unavailable"))],
     (sendQueries sdk empty_world).2).
Proof. vm_compute. reflexivity. Qed.

(* ===================================================================== *)
(** ** What every event of a run satisfies *)
(* ===================================================================== *)

Section Events.

Context {S : Type} (sdk : Sdk S).
Variable P : Event -> Prop.

Lemma emits_only_ret {A} (a : A) : emits_only P (S := S) (ret a).
Proof. intros w. constructor. Qed.

Lemma emits_only_throw {A} e : emits_only P (S := S) (A := A) (throw e).
Proof. intros w. constructor. Qed.

Lemma emits_only_alloc c : emits_only P (S := S) (alloc c).
Proof. intros w. constructor. Qed.

Lemma emits_only_console_log line :
  P (ConsoleLog line) -> emits_only P (S := S) (console_log line).
Proof. intros HP w. by repeat constructor. Qed.

Lemma emits_only_sleep ms : P (TimerElapsed ms) -> emits_only P (S := S) (sleep ms).
Proof. intros HP w. by repeat constructor. Qed.

Lemma emits_only_call {A} req (op : S -> (Exn + A) * S) :
  (forall r, P (SdkCall req r)) -> emits_only P (call req op).
Proof.
  intros HP w. unfold call.
  destruct (op (service w)) as [[e|a] s']; by repeat constructor.
Qed.

Lemma emits_only_search_call text l :
  (forall view r, P (SdkCall (SearchDocuments text l view) r)) ->
  emits_only P (search_call sdk text l).
Proof.
  intros HP w. unfold search_call.
  destruct (search sdk text l (heap w) (service w)) as [[[e|r] h'] s'];
    by repeat constructor.
Qed.

Lemma emits_only_for_await items failure :
  (forall d, P (ConsoleLog [JsonDoc d])) ->
  (forall e, P (SdkCall NextPage (Some e))) ->
  emits_only P (S := S) (for_await items failure print_document).
Proof.
  intros Hlog Hpage w. rewrite for_await_print. simpl. apply Forall_app. split.
  - unfold printed. apply Forall_fmap, Forall_forall. intros r _. apply Hlog.
  - destruct failure; by repeat constructor.
Qed.

Lemma emits_only_deleteIndexIfExists name :
  (forall r, P (SdkCall (DeleteIndex name) r)) ->
  P deleting_line -> P missing_index_line ->
  emits_only P (deleteIndexIfExists sdk name).
Proof.
  intros Hdel Hlog1 Hlog2 w.
  destruct (deleteIndex sdk name (service w)) as [r s'] eqn:Hop.
  rewrite (deleteIndexIfExists_run sdk name w r s' Hop). simpl.
  destruct r; by repeat constructor.
Qed.

Lemma emits_only_bind {A B} (m : M S A) (k : A -> M S B) :
  emits_only P m -> (forall a, emits_only P (k a)) -> emits_only P (bind m k).
Proof.
  intros Hm Hk w. specialize (Hm w).
  destruct (m w) as [[[a|e] t1] w1] eqn:Hrun; simpl in Hm.
  - rewrite (bind_normal _ _ _ _ _ _ Hrun). simpl.
    apply Forall_app. split; [done | apply Hk].
  - by rewrite (bind_throw _ _ _ _ _ _ Hrun).
Qed.

(** The continuation of a read only runs with the value read. *)
Lemma emits_only_bind_lift {A B} (r : Exn + A) (k : A -> M S B) :
  (forall a, r = inr a -> emits_only P (k a)) -> emits_only P (bind (lift r) k).
Proof.
  intros Hk w. destruct r as [e|a]; simpl.
  - unfold bind, throw. simpl. constructor.
  - unfold bind, ret. specialize (Hk a eq_refl w).
    by destruct (k a w) as [[c t] w'].
Qed.

End Events.

Ltac event_holds := solve [intros; simpl; auto 7].

Ltac emits_step :=
  first
    [ apply emits_only_bind_lift; intros ? ?
    | apply emits_only_bind; [| intros ?]
    | apply emits_only_console_log; event_holds
    | apply emits_only_sleep; event_holds
    | apply emits_only_call; event_holds
    | apply emits_only_search_call; event_holds
    | apply emits_only_for_await; event_holds
    | apply emits_only_deleteIndexIfExists; event_holds
    | apply emits_only_alloc
    | apply emits_only_ret
    | apply emits_only_throw ].

Section Requests.

Context {S : Type} (sdk : Sdk S).

Lemma expected_loadData ep key def docs :
  emits_only (expected_event ep key def docs) (loadData sdk docs).
Proof.
  unfold loadData. repeat emits_step.
  destruct (results _ !! 0%nat); emits_step.
Qed.

Lemma expected_sendQueries ep key def docs :
  emits_only (expected_event ep key def docs) (sendQueries sdk).
Proof.
  unfold sendQueries, query1, query2, query3, query4, query5.
  repeat emits_step.
Qed.

Lemma expected_main ep key def docs :
  emits_only (expected_event ep key def docs) (main sdk ep key def docs).
Proof.
  unfold main. emits_step; [emits_step |].
  destruct (negb (truthy_string ep) || negb (truthy_string key)).
  - repeat emits_step.
  - repeat first [ apply expected_loadData | apply expected_sendQueries
                 | emits_step ].
Qed.

Lemma silent_errors_loadData docs :
  emits_only (fun ev => is_error_line ev = false) (loadData sdk docs).
Proof.
  unfold loadData. repeat emits_step.
  destruct (results _ !! 0%nat); emits_step.
Qed.

Lemma silent_errors_main ep key def docs :
  emits_only (fun ev => is_error_line ev = false) (main sdk ep key def docs).
Proof.
  unfold main. emits_step; [emits_step |].
  destruct (negb (truthy_string ep) || negb (truthy_string key)).
  - repeat emits_step.
  - unfold sendQueries, query1, query2, query3, query4, query5.
    repeat first [ apply silent_errors_loadData | emits_step ].
Qed.

End Requests.

(* ===================================================================== *)
(** ** Why a run throws *)
(* ===================================================================== *)

Section Causes.

Context {S : Type} (sdk : Sdk S).

Lemma caused_app e t1 t2 : caused e t2 -> caused e (t1 ++ t2).
Proof.
  intros (pre & ev & -> & Hev). exists (t1 ++ pre), ev.
  by rewrite app_assoc.
Qed.

Lemma cause_ret {A} (a : A) : throws_with_cause (S := S) (ret a).
Proof. intros w e H. discriminate. Qed.

Lemma cause_console_log line : throws_with_cause (S := S) (console_log line).
Proof. intros w e H. discriminate. Qed.

Lemma cause_alloc c : throws_with_cause (S := S) (alloc c).
Proof. intros w e H. discriminate. Qed.

Lemma cause_sleep ms : throws_with_cause (S := S) (sleep ms).
Proof. intros w e H. discriminate. Qed.

Lemma cause_deleteIndexIfExists name : throws_with_cause (deleteIndexIfExists sdk name).
Proof.
  intros w e.
  destruct (deleteIndex sdk name (service w)) as [r s'] eqn:Hop.
  rewrite (deleteIndexIfExists_run sdk name w r s' Hop). discriminate.
Qed.

Lemma cause_call {A} req (op : S -> (Exn + A) * S) :
  (forall e, fatal (SdkCall req (Some e)) = Some e) ->
  throws_with_cause (call req op).
Proof.
  intros Hf w e. unfold call.
  destruct (op (service w)) as [[e'|a] s']; simpl; [| discriminate].
  intros [= ->]. exists [], (SdkCall req (Some e)). split; [done |]. by left.
Qed.

Lemma cause_search_call text l : throws_with_cause (search_call sdk text l).
Proof.
  intros w e. unfold search_call.
  destruct (search sdk text l (heap w) (service w)) as [[[e'|r] h'] s']; simpl;
    [| discriminate].
  intros [= ->]. eexists [], _. split; [done |]. by left.
Qed.

Lemma cause_for_await items failure :
  throws_with_cause (S := S) (for_await items failure print_document).
Proof.
  intros w e. rewrite for_await_print. simpl.
  destruct failure as [e'|]; [| discriminate].
  intros [= ->]. exists (printed items), (SdkCall NextPage (Some e)).
  split; [done |]. by left.
Qed.

Lemma cause_bind {A B} (m : M S A) (k : A -> M S B) :
  throws_with_cause m -> (forall a, throws_with_cause (k a)) ->
  throws_with_cause (bind m k).
Proof.
  intros Hm Hk w e. specialize (Hm w).
  destruct (m w) as [[[a|e1] t1] w1] eqn:Hrun; simpl in Hm.
  - rewrite (bind_normal _ _ _ _ _ _ Hrun). simpl.
    intros Hthrow. apply caused_app. by apply Hk.
  - rewrite (bind_throw _ _ _ _ _ _ Hrun). simpl. intros [= ->]. by apply Hm.
Qed.

Lemma cause_bind_lift {A B} (r : Exn + A) (k : A -> M S B) a :
  r = inr a -> throws_with_cause (k a) -> throws_with_cause (bind (lift r) k).
Proof.
  intros -> Hk w e. unfold bind, lift, ret. specialize (Hk w e).
  destruct (k a w) as [[c t] w']. simpl in *. apply Hk.
Qed.

Lemma cause_loadData docs : throws_with_cause (loadData sdk docs).
Proof.
  intros w e. unfold loadData. rewrite bind_console_log. simpl.
  destruct (mergeOrUploadDocuments sdk docs (service w)) as [[e1|r] s'] eqn:Hup.
  - rewrite (bind_call_failed _ _ _ _ _ _ Hup). simpl. intros [= ->].
    eexists [_], _. split; [done |]. by left.
  - rewrite (bind_call _ _ _ _ _ _ Hup). simpl. rewrite bind_console_log. simpl.
    destruct r as [[|first rest]]; simpl; [| discriminate].
    intros [= <-]. eexists [_; _], _. split; [done |]. by right.
Qed.

Ltac cause_step :=
  first
    [ apply cause_loadData
    | apply cause_deleteIndexIfExists
    | apply cause_for_await
    | apply cause_bind; [| intros ?]
    | apply cause_console_log
    | apply cause_sleep
    | apply cause_call; intros ?; reflexivity
    | apply cause_search_call
    | apply cause_alloc
    | apply cause_ret ].

Lemma cause_sendQueries : throws_with_cause (sendQueries sdk).
Proof.
  unfold sendQueries, query1, query2, query3, query4, query5.
  repeat cause_step.
Qed.

Lemma get_prop_truthy v k : truthy v = true -> exists x, get_prop v k = inr x.
Proof. destruct v; simpl; try discriminate; by eexists. Qed.

Lemma cause_main ep key def docs :
  truthy def = true -> throws_with_cause (main sdk ep key def docs).
Proof.
  intros Hdef. destruct (get_prop_truthy def "name" Hdef) as [name Hname].
  unfold main. cause_step; [cause_step |].
  destruct (negb (truthy_string ep) || negb (truthy_string key)).
  - repeat cause_step.
  - cause_step; [cause_step |].
    apply (cause_bind_lift _ _ name Hname).
    repeat first [ apply cause_sendQueries | cause_step ].
Qed.

Lemma fatal_is_a_failed_call ev e :
  fatal ev = Some e ->
  exists req, ev = SdkCall req (Some e) /\ is_deletion ev = false.
Proof.
  destruct ev as [| |req [e'|]|]; simpl; try discriminate;
    destruct req; simpl; try discriminate; intros [= ->]; by eexists.
Qed.

Lemma unreportable_is_an_empty_result ev e :
  unreportable ev = Some e ->
  exists r, ev = ConsoleLog [JsonResult r] /\ results r = [] /\ e = no_first_result.
Proof.
  destruct ev as [line| | |]; simpl; try discriminate.
  destruct line as [|[| | |r| |] [|]]; try discriminate.
  destruct (results r) eqn:Hr; [| discriminate].
  intros [= <-]. by exists r.
Qed.

Lemma startup_truthy inp c :
  startup inp = inr c -> truthy (hotelIndexDefinition c) = true.
Proof.
  unfold startup. intros H.
  destruct (hotelData inp) as [e|hd]; [discriminate |].
  destruct (indexDefinition inp) as [e|idef]; [discriminate |].
  destruct (truthy hd), (truthy idef) eqn:Hidef; simpl in H; try discriminate.
  destruct (get_prop hd "value") as [e|hs]; [discriminate |].
  by inversion H.
Qed.

End Causes.

(* ===================================================================== *)
(** ** Further properties of the quickstart *)
(* ===================================================================== *)

Lemma startup_fails_iff inp :
  (exists e, startup inp = inl e) <->
  no_value (hotelData inp) \/ no_value (indexDefinition inp).
Proof.
  unfold startup, no_value.
  destruct (hotelData inp) as [e|hd]; [split; [by left | by eexists] |].
  destruct (indexDefinition inp) as [e|idef]; [split; [by right | by eexists] |].
  destruct (truthy hd) eqn:Hhd; simpl.
  - destruct (truthy idef) eqn:Hidef; simpl.
    + destruct (get_prop_truthy hd "value" Hhd) as [x ->].
      split; [by intros [e ?] | by intros [? | ?]].
    + split; [by right | by eexists].
  - split; [by left | by eexists].
Qed.

Lemma top_level_normal {S} (sdk : Sdk S) c w : (top_level sdk c w).1.1 = Normal tt.
Proof.
  destruct (main sdk (endpoint c) (apiKey c) (hotelIndexDefinition c) (hotels c) w)
    as [[compl t] w'] eqn:Hrun.
  rewrite (top_level_run sdk c w _ _ _ Hrun). by destruct compl.
Qed.





(** X1.  The start-up guard tests only that the two imported documents are
    truthy: with any two truthy values start-up succeeds, [hotels] is the
    own property ["value"] of the record set, or [undefined] when there is
    none (or when the document is no object), the index definition is
    taken as it is, and an unset variable reads as the empty string. *)
Theorem startup_accepts_truthy_documents inp hd idef :
  hotelData inp = inr hd ->
  indexDefinition inp = inr idef ->
  truthy hd = true ->
  truthy idef = true ->
  startup inp =
    inr {| hotels := value_of hd;
           hotelIndexDefinition := idef;
           endpoint := or_empty (process_env inp !! "SEARCH_API_ENDPOINT");
           apiKey := or_empty (process_env inp !! "SEARCH_API_KEY") |}.
Proof.
  intros Hhd Hidef Thd Tidef. unfold startup. rewrite Hhd, Hidef, Thd, Tidef. simpl.
  by destruct hd.
Qed.

(** X2.  The process ends with a non-zero status exactly when one of the
    two bundled documents is missing or falsy: whatever the SDK does
    afterwards, the status is 0. *)
Theorem exit_status_is_nonzero_iff_a_document_has_no_value {S} (sdk : Sdk S) inp s0 :
  exit_code (program sdk inp s0) <> 0 <->
  no_value (hotelData inp) \/ no_value (indexDefinition inp).
Proof.
  rewrite <- startup_fails_iff. unfold program.
  destruct (startup inp) as [e|c] eqn:Hstart; simpl.
  - split; [by eexists | done].
  - pose proof (top_level_normal sdk c (Build_World s0 ∅)) as Hn.
    destruct (top_level sdk c _) as [[[[]|e] t] w']; simpl in *; [| done].
    split; [done | by intros [e ?]].
Qed.


(** X4.  Every call [main] makes carries the arguments that its constants
    determine: the client is built from the endpoint and the key, the only
    index deleted and the only search client asked for are those of the
    name read from the index definition, the index is created from that
    definition, the upload is given the record set, the searches use the
    three texts of the script and the lookup the key ["3"]. *)
Theorem requests_carry_the_configured_arguments {S} (sdk : Sdk S)
    ep key def docs w req r :
  SdkCall req r ∈ (main sdk ep key def docs w).1.2 ->
  expected_request ep key def docs req.
Proof.
  intros Hin. pose proof (expected_main sdk ep key def docs w) as Hall.
  by apply (proj1 (Forall_forall _ _) Hall _ Hin).
Qed.

(** X5.  After start-up, [main] throws only for one of two reasons: its
    last event is a call other than the deletion that failed with the
    error thrown, or it is the printing of an upload result without
    per-record results and the error is that of reading the first one. *)
Theorem main_throws_only_for_a_cause {S} (sdk : Sdk S) inp c w e t w' :
  startup inp = inr c ->
  main sdk (endpoint c) (apiKey c) (hotelIndexDefinition c) (hotels c) w
    = (Throw e, t, w') ->
  exists pre ev,
    t = pre ++ [ev] /\
    ((exists req, ev = SdkCall req (Some e) /\ is_deletion ev = false) \/
     (exists r, ev = ConsoleLog [JsonResult r] /\ results r = [] /\
                e = no_first_result)).
Proof.
  intros Hstart Hrun.
  pose proof (cause_main sdk (endpoint c) (apiKey c) (hotelIndexDefinition c)
                (hotels c) (startup_truthy inp c Hstart) w e) as Hcause.
  rewrite Hrun in Hcause. simpl in Hcause.
  destruct (Hcause eq_refl) as (pre & ev & -> & Hev).
  exists pre, ev. split; [done |]. destruct Hev as [Hev | Hev].
  - left. by apply fatal_is_a_failed_call.
  - right. by apply unreportable_is_an_empty_result.
Qed.

(** X6.  After start-up with a valid configuration, a run in which no call
    but the deletion fails and in which the printed upload result has at
    least one per-record result completes, and performs the whole plan. *)
Theorem main_completes_when_nothing_fails {S} (sdk : Sdk S) inp c w compl t w' :
  startup inp = inr c ->
  valid_configuration (endpoint c) (apiKey c) ->
  main sdk (endpoint c) (apiKey c) (hotelIndexDefinition c) (hotels c) w
    = (compl, t, w') ->
  (forall req e, SdkCall req (Some e) ∈ t -> exists n, req = DeleteIndex n) ->
  (forall r, ConsoleLog [JsonResult r] ∈ t -> results r <> []) ->
  compl = Normal tt /\
  steps t = plan (endpoint c) (apiKey c) (hotelIndexDefinition c) (hotels c).
Proof.
  intros Hstart Hcfg Hrun Hcalls Hupload.
  assert (compl = Normal tt) as ->.
  { destruct compl as [[]|e]; [done |]. exfalso.
    pose proof (cause_main sdk (endpoint c) (apiKey c) (hotelIndexDefinition c)
                  (hotels c) (startup_truthy inp c Hstart) w e) as Hcause.
    rewrite Hrun in Hcause. simpl in Hcause.
  destruct (Hcause eq_refl) as (pre & ev & -> & Hev).
    destruct Hev as [Hev | Hev].
    - apply fatal_is_a_failed_call in Hev as (req & -> & Hdel).
      destruct (Hcalls req e) as [n ->]; [set_solver | done].
    - apply unreportable_is_an_empty_result in Hev as (r & -> & Hr & _).
      apply (Hupload r); [set_solver | done]. }
  split; [done |].
  pose proof (linear_main sdk (endpoint c) (apiKey c) (hotelIndexDefinition c)
                (hotels c) Hcfg w) as [_ Hall].
  rewrite Hrun in Hall. by apply (Hall tt).
Qed.

(** X7.  The output of the process has at most one error line, and it is
    its last line: it carries the label of the sample and the error that
    [main] threw, and what precedes it is the output of [main]. *)
Theorem error_line_is_last_and_unique {S} (sdk : Sdk S) inp s0 pre label err post :
  output (program sdk inp s0) = pre ++ ConsoleError label err :: post ->
  post = [] /\ label = error_label /\
  Forall (fun ev => is_error_line ev = false) pre /\
  exists c w',
    startup inp = inr c /\
    main sdk (endpoint c) (apiKey c) (hotelIndexDefinition c) (hotels c)
         (Build_World s0 ∅) = (Throw err, pre, w').
Proof.
  unfold program. destruct (startup inp) as [e|c] eqn:Hstart; simpl.
  { intros H. by destruct pre. }
  destruct (main sdk (endpoint c) (apiKey c) (hotelIndexDefinition c) (hotels c)
              (Build_World s0 ∅)) as [[compl t] w'] eqn:Hrun.
  pose proof (silent_errors_main sdk (endpoint c) (apiKey c)
                (hotelIndexDefinition c) (hotels c) (Build_World s0 ∅)) as Hsilent.
  rewrite Hrun in Hsilent. simpl in Hsilent.
  rewrite (top_level_run sdk c _ _ _ _ Hrun).
  destruct compl as [[]|e]; simpl; intros Hout.
  - exfalso. rewrite Hout in Hsilent.
    apply Forall_app in Hsilent as [_ Hs]. apply Forall_cons in Hs as [Hs _].
    discriminate.
  - apply (split_unique is_error_line) in Hout as (-> & Hev & ->);
      [| done | done | constructor].
    inversion Hev; subst. repeat split; try done. by exists c, w'.
Qed.

(** X8.  The first query prints one line per result, in the order in which
    the results arrive, and the count after them; when a later page cannot
    be fetched it stops after the results it got, without the count; when
    the search itself fails it prints nothing. *)
Theorem query1_prints_results_in_arrival_order {S} (sdk : Sdk S) selectFields w :
  let l := fresh (dom (heap w)) in
  let h := <[l := OptionsCell {| includeTotalCount := Some true;
                                select := Some selectFields;
                                filter := None; orderBy := None;
                                searchFields := None; facets := None |}]> (heap w) in
  let answer := (search sdk "*" l h (service w)).1.1 in
  (query1 sdk selectFields w).1.2 =
    SdkCall (SearchDocuments "*" l (read_options h l)) (failure_of answer)
    :: query1_output answer /\
  (query1 sdk selectFields w).1.1 =
    match answer with
    | inl e => Throw e
    | inr r => match sr_failure r with Some e => Throw e | None => Normal tt end
    end.
Proof.
  intros l h answer. unfold query1. rewrite bind_alloc. fold l. fold h.
  assert (exists w1,
            search_call sdk "*" l (Build_World (service w) h) =
              (match answer with inl e => Throw e | inr r => Normal r end,
               [SdkCall (SearchDocuments "*" l (read_options h l)) (failure_of answer)],
               w1)) as [w1 Hcall].
  { unfold search_call, answer. simpl.
    destruct (search sdk "*" l h (service w)) as [[[e|r] h'] s']; by eexists. }
  destruct answer as [e|r].
  - by rewrite (bind_throw _ _ _ _ _ _ Hcall).
  - rewrite (bind_normal _ _ _ _ _ _ Hcall). simpl.
    pose proof (for_await_print (sr_results r) (sr_failure r) w1) as Hloop.
    destruct (sr_failure r) as [e|].
    + rewrite (bind_throw _ _ _ _ _ _ Hloop). by simpl.
    + rewrite (bind_normal _ _ _ _ _ _ Hloop). simpl.
      by rewrite app_nil_r.
Qed.

(** X9.  [loadData] reports the flag of the first per-record result only:
    whenever the upload answers with at least one result it completes,
    whether or not that record or any other was accepted, and the line it
    prints does not depend on the other results. *)
Theorem loadData_reports_only_the_first_flag {S} (sdk : Sdk S) docs w r first rest s' :
  mergeOrUploadDocuments sdk docs (service w) = (inr r, s') ->
  results r = first :: rest ->
  loadData sdk docs w =
    (Normal tt,
     [uploading_line; SdkCall (MergeOrUploadDocuments docs) None;
      ConsoleLog [JsonResult r];
      ConsoleLog [Lit "Index operations succeeded: "; JsonBool (succeeded first)]],
     Build_World s' (heap w)).
Proof.
  intros Hup Hres. unfold loadData. rewrite bind_console_log. simpl.
  rewrite (bind_call _ _ _ _ _ _ Hup). simpl.
  rewrite bind_console_log. simpl. by rewrite Hres.
Qed.

(** Reading the two hypotheses of X6 off a trace that is quiet. *)
Lemma quiet_fatal_calls t req e :
  quiet fatal t -> SdkCall req (Some e) ∈ t -> exists n, req = DeleteIndex n.
Proof.
  intros Hq Hin. pose proof (proj1 (Forall_forall _ _) Hq _ Hin) as Hf.
  destruct req; try discriminate. by eexists.
Qed.

Lemma quiet_unreportable_results t r :
  quiet unreportable t -> ConsoleLog [JsonResult r] ∈ t -> results r <> [].
Proof.
  intros Hq Hin. pose proof (proj1 (Forall_forall _ _) Hq _ Hin) as Hf.
  simpl in Hf. by destruct (results r).
Qed.

(* ===================================================================== *)
(** ** The further properties at concrete runs *)
(* ===================================================================== *)

(** A record set without a [value] passes the guard; [hotels] is
    [undefined]. *)
Lemma startup_accepts_truthy_documents_witness :
  startup valueless_inputs =
    inr {| hotels := JUndefined;
           hotelIndexDefinition := sample_index_definition;
           endpoint := "https://example.search.windows.net";
           apiKey := "secret" |}.
Proof.
  exact (startup_accepts_truthy_documents valueless_inputs
           (JObj [("hotels", JArr [sample_document])]) sample_index_definition
           eq_refl eq_refl eq_refl eq_refl).
Defined.

Lemma exit_status_is_nonzero_iff_a_document_has_no_value_witness :
  exit_code (program (scripted all_fine) null_inputs tt) <> 0 /\
  ~ (no_value (hotelData sample_inputs) \/ no_value (indexDefinition sample_inputs)).
Proof.
  split.
  - apply (proj2 (exit_status_is_nonzero_iff_a_document_has_no_value
                    (scripted all_fine) null_inputs tt)).
    left. reflexivity.
  - intros H.
    apply (proj2 (exit_status_is_nonzero_iff_a_document_has_no_value
                    (scripted (with_create (inl forbidden) all_fine))
                    sample_inputs tt)) in H.
    apply H. vm_compute. reflexivity.
Defined.


Lemma requests_carry_the_configured_arguments_witness :
  let c := sample_constants in
  expected_request (endpoint c) (apiKey c) (hotelIndexDefinition c) (hotels c)
    (DeleteIndex (JStr "hotels-quickstart")).
Proof.
  intros c.
  apply (requests_carry_the_configured_arguments (scripted all_fine)
           (endpoint c) (apiKey c) (hotelIndexDefinition c) (hotels c)
           empty_world (DeleteIndex (JStr "hotels-quickstart")) None).
  apply list_elem_of_In. vm_compute. do 3 right. left. reflexivity.
Defined.

Lemma main_throws_only_for_a_cause_witness :
  let sdk := scripted (with_create (inl forbidden) all_fine) in
  let c := sample_constants in
  let run := main sdk (endpoint c) (apiKey c) (hotelIndexDefinition c) (hotels c)
                  empty_world in
  exists pre ev,
    run.1.2 = pre ++ [ev] /\
    ((exists req, ev = SdkCall req (Some forbidden) /\ is_deletion ev = false) \/
     (exists r, ev = ConsoleLog [JsonResult r] /\ results r = [] /\
                forbidden = no_first_result)).
Proof.
  intros sdk c run.
  assert (startup sample_inputs = inr c) as Hstart by (vm_compute; reflexivity).
  assert (main sdk (endpoint c) (apiKey c) (hotelIndexDefinition c) (hotels c)
               empty_world = (Throw forbidden, run.1.2, run.2)) as Hrun
    by (vm_compute; reflexivity).
  exact (main_throws_only_for_a_cause sdk sample_inputs c empty_world _ _ _
           Hstart Hrun).
Defined.

Lemma main_completes_when_nothing_fails_witness :
  let sdk := scripted (with_delete (inl not_found) all_fine) in
  let c := sample_constants in
  let run := main sdk (endpoint c) (apiKey c) (hotelIndexDefinition c) (hotels c)
                  empty_world in
  run.1.1 = Normal tt /\
  steps run.1.2 = plan (endpoint c) (apiKey c) (hotelIndexDefinition c) (hotels c).
Proof.
  intros sdk c run.
  assert (startup sample_inputs = inr c) as Hstart by (vm_compute; reflexivity).
  assert (main sdk (endpoint c) (apiKey c) (hotelIndexDefinition c) (hotels c)
               empty_world = (run.1.1, run.1.2, run.2)) as Hrun
    by (vm_compute; reflexivity).
  apply (main_completes_when_nothing_fails sdk sample_inputs c empty_world _ _ _
           Hstart (conj eq_refl eq_refl) Hrun).
  - intros req e. apply quiet_fatal_calls. vm_compute. repeat constructor.
  - intros r. apply quiet_unreportable_results. vm_compute. repeat constructor.
Defined.

Lemma error_line_is_last_and_unique_witness :
  let sdk := scripted (with_create (inl forbidden) all_fine) in
  let out := output (program sdk sample_inputs tt) in
  Forall (fun ev => is_error_line ev = false) (removelast out) /\
  exists c w',
    startup sample_inputs = inr c /\
    main sdk (endpoint c) (apiKey c) (hotelIndexDefinition c) (hotels c)
         (Build_World tt ∅) = (Throw forbidden, removelast out, w').
Proof.
  intros sdk out.
  destruct (error_line_is_last_and_unique sdk sample_inputs tt (removelast out)
              error_label forbidden []) as (_ & _ & Hpre & Hmain).
  - vm_compute. reflexivity.
  - split; [exact Hpre | exact Hmain].
Defined.

(** The first record was refused: [loadData] says so and completes. *)
Lemma loadData_reports_only_the_first_flag_witness :
  let sdk := scripted (with_upload (inr refused_results) all_fine) in
  loadData sdk (JArr [sample_document]) empty_world =
    (Normal tt,
     [uploading_line;
      SdkCall (MergeOrUploadDocuments (JArr [sample_document])) None;
      ConsoleLog [JsonResult refused_results];
      ConsoleLog [Lit "Index operations succeeded: "; JsonBool false]],
     empty_world).
Proof.
  intros sdk.
  exact (loadData_reports_only_the_first_flag sdk (JArr [sample_document])
           empty_world refused_results _ _ tt eq_refl eq_refl).
Defined.
